(** * Airport surveillance scenario generator: a shallow embedding

    The development follows [code/generate_dataset.py].  The generator
    object is a record of eight lists, the methods of [ScenarioGenerator]
    are state transformers over that record, and the process-wide random
    stream of Python's [random] module is threaded explicitly through
    every method that draws from it.

    Numbers are kept as Python has them: integers are [Z], floats are
    IEEE-754 binary64 values ([spec_float] with precision 53 and maximal
    exponent 1024), and a field that the source fills with either kind is
    a [number].  Output written with [print] is not part of the model. *)

From Stdlib Require Import ZArith Lia List String Ascii Bool DecimalString DecimalNat.
From Stdlib Require Import Floats.SpecFloat.
From stdpp Require Import base decidable list strings.

Local Open Scope string_scope.

(** ** Binary64 arithmetic *)

Module F64.

Definition prec : Z := 53.
Definition emax : Z := 1024.

Definition float := spec_float.

Definition of_Z (z : Z) : float := binary_normalize prec emax z 0 false.
Definition mul : float -> float -> float := SFmul prec emax.
Definition div : float -> float -> float := SFdiv prec emax.

(** The decimal literal [m]e-[k], rounded to the nearest double as the
    Python reader does: [dec 85 2] is the literal [0.85]. *)
Definition dec (m : Z) (k : nat) : float :=
  div (of_Z m) (of_Z (10 ^ Z.of_nat k)).

Definition ltb : float -> float -> bool := SFltb.
Definition leb : float -> float -> bool := SFleb.

Definition is_nan (x : float) : bool :=
  match x with S754_nan => true | _ => false end.

Definition eq_dec (x y : float) : {x = y} + {x <> y}.
Proof.
  decide equality; first [apply Z.eq_dec | apply Pos.eq_dec | apply Bool.bool_dec].
Defined.

(** Python's [min(a, b)]: the first argument unless the second is
    strictly smaller. *)
Definition min (a b : float) : float := if ltb b a then b else a.

End F64.

Abbreviation float := F64.float.

#[global] Instance float_eq_dec : EqDecision float := F64.eq_dec.

(** A Python number: the dataclass annotations say [float], the
    constructors are called with [int] literals in several places. *)
Inductive number :=
| PyInt (z : Z)
| PyFloat (x : float).

#[global] Instance number_eq_dec : EqDecision number.
Proof. solve_decision. Defined.

Definition to_float (n : number) : float :=
  match n with
  | PyInt z => F64.of_Z z
  | PyFloat x => x
  end.

(** [n *= x] with a float [x]: an [int] operand is converted first.
    Python raises [OverflowError] where the int lies beyond the range of
    a double; the model has no error there and would give an infinity.
    The only ints that the generator puts into a link are 1000 and
    10000, so the case does not arise in a generator that calls have
    brought about: this is proved in the section on capacities. *)
Definition imul (n : number) (x : float) : number :=
  PyFloat (F64.mul (to_float n) x).

(** ** The random module

    The source uses [random.seed], [random.random], [random.uniform],
    [random.randint] and [random.choice] on the module-level generator.
    The generator itself is library code; it is taken here through its
    documented interface.  [choice] on an empty sequence raises
    [IndexError] in Python; every call site of the source passes a
    sequence that is non-empty, and the model returns the given default
    on the empty one. *)

Class RandomSource := {
  rng : Type;
  seed : Z -> rng;
  random : rng -> float * rng;
  uniform : float -> float -> rng -> float * rng;
  randint : Z -> Z -> rng -> Z * rng;
  choice : forall {A : Type}, A -> list A -> rng -> A * rng;
  (** [0.0 <= random() < 1.0] *)
  random_range : forall g,
    F64.leb (F64.of_Z 0) (fst (random g)) = true /\
    F64.ltb (fst (random g)) (F64.of_Z 1) = true;
  (** [a <= uniform(a, b) <= b] for [a <= b] *)
  uniform_range : forall a b g,
    F64.leb a b = true ->
    F64.leb a (fst (uniform a b g)) = true /\
    F64.leb (fst (uniform a b g)) b = true;
  (** [a <= randint(a, b) <= b] for [a <= b] *)
  randint_range : forall a b g,
    (a <= b)%Z -> (a <= fst (randint a b g) <= b)%Z;
  (** [choice(seq)] is an element of the non-empty [seq] *)
  choice_In : forall (A : Type) (d : A) (l : list A) g,
    l <> [] -> In (fst (choice d l g)) l
}.

(** Computations that draw from the random stream. *)
Definition Rand `{RandomSource} (A : Type) : Type := rng -> A * rng.

Definition ret `{RandomSource} {A : Type} (a : A) : Rand A := fun g => (a, g).

Definition bind `{RandomSource} {A B : Type} (m : Rand A) (k : A -> Rand B) : Rand B :=
  fun g => let (a, g') := m g in k a g'.

Notation "'draw' x '<-' m ';' k" := (bind m (fun x => k))
  (at level 10, x name, m at level 100, k at level 200).

(** A [for] loop whose body updates the object and may draw. *)
Fixpoint for_loop `{RandomSource} {A S : Type} (body : A -> S -> Rand S) (l : list A) (self : S)
    : Rand S :=
  match l with
  | [] => ret self
  | a :: l' => draw self' <- body a self; for_loop body l' self'
  end.

(** The values a loop computes, one per item, in order. *)
Fixpoint for_each `{RandomSource} {A B : Type} (body : A -> Rand B) (l : list A) : Rand (list B) :=
  match l with
  | [] => ret []
  | a :: l' => draw b <- body a; draw bs <- for_each body l'; ret (b :: bs)
  end.

(** ** Enums *)

Inductive PolicyZone :=
| PZ1_CRITICAL_SECURITY
| PZ2_BOARDING_GATES
| PZ3_PUBLIC_AREA
| PZ4_VIP_RESTRICTED
| PZ5_ARRIVAL_BAGGAGE.

#[global] Instance PolicyZone_eq_dec : EqDecision PolicyZone.
Proof. solve_decision. Defined.

(** [list(PolicyZone)]: the members in definition order. *)
Definition all_zones : list PolicyZone :=
  [PZ1_CRITICAL_SECURITY; PZ2_BOARDING_GATES; PZ3_PUBLIC_AREA;
   PZ4_VIP_RESTRICTED; PZ5_ARRIVAL_BAGGAGE].

Definition PolicyZone_name (z : PolicyZone) : string :=
  match z with
  | PZ1_CRITICAL_SECURITY => "PZ1_CRITICAL_SECURITY"
  | PZ2_BOARDING_GATES => "PZ2_BOARDING_GATES"
  | PZ3_PUBLIC_AREA => "PZ3_PUBLIC_AREA"
  | PZ4_VIP_RESTRICTED => "PZ4_VIP_RESTRICTED"
  | PZ5_ARRIVAL_BAGGAGE => "PZ5_ARRIVAL_BAGGAGE"
  end.

Inductive IntentCategory :=
| SAFETY_CRITICAL
| CROWD_MONITORING
| COST_OPTIMIZATION
| NETWORK_QOS
| CONTEXT_AWARE
| FAULT_TOLERANCE
| MULTI_OBJECTIVE.

#[global] Instance IntentCategory_eq_dec : EqDecision IntentCategory.
Proof. solve_decision. Defined.

Definition IntentCategory_name (c : IntentCategory) : string :=
  match c with
  | SAFETY_CRITICAL => "SAFETY_CRITICAL"
  | CROWD_MONITORING => "CROWD_MONITORING"
  | COST_OPTIMIZATION => "COST_OPTIMIZATION"
  | NETWORK_QOS => "NETWORK_QOS"
  | CONTEXT_AWARE => "CONTEXT_AWARE"
  | FAULT_TOLERANCE => "FAULT_TOLERANCE"
  | MULTI_OBJECTIVE => "MULTI_OBJECTIVE"
  end.

(** ** Dataclasses *)

Module Camera.
Record t := mk {
  id : string;
  zone : PolicyZone;
  location : string;
  priority : Z;
  resolution : string;
  fps : Z;
  bitrate_mbps : float
}.
End Camera.

Module EdgeServer.
Record t := mk {
  id : string;
  location : string;
  cpu_cores : Z;
  memory_gb : Z;
  network_bandwidth_gbps : float
}.
End EdgeServer.

(** The cloud endpoints are dictionaries with the three keys below. *)
Module CloudEndpoint.
Record t := mk {
  id : string;
  location : string;
  bandwidth_gbps : Z
}.
End CloudEndpoint.

Module NetworkLink.
Record t := mk {
  src : string;
  dst : string;
  capacity_mbps : number;
  latency_ms : float;
  packet_loss_rate : float;
  stochastic : bool;
  link_type : string
}.
End NetworkLink.

Module VideoFlow.
Record t := mk {
  id : string;
  camera_id : string;
  zone : PolicyZone;
  source : string;
  destination : string;
  backup_destination : string;
  bitrate_mbps : float;
  priority : Z;
  analytics_type : string;
  compute_intensity : float;
  processing_delay_ms : float
}.
End VideoFlow.

(** The values found in an intent's [constraints] dictionary. *)
Inductive pyvalue :=
| VInt (z : Z)
| VFloat (x : float)
| VBool (b : bool)
| VStr (s : string).

Module Intent.
Record t := mk {
  id : string;
  category : IntentCategory;
  description : string;
  target_zones : list PolicyZone;
  constraints : list (string * pyvalue);
  priority : Z
}.
End Intent.

Module FailureEvent.
Record t := mk {
  target : string;
  failure_type : string;
  start_time_s : Z;
  duration_s : Z;
  severity : float
}.
End FailureEvent.

Module BackgroundTraffic.
Record t := mk {
  id : string;
  src : string;
  dst : string;
  start_time_s : Z;
  duration_s : Z;
  bitrate_mbps : float;
  flow_type : string
}.
End BackgroundTraffic.

#[global] Instance Camera_eq_dec : EqDecision Camera.t.
Proof. solve_decision. Defined.
#[global] Instance EdgeServer_eq_dec : EqDecision EdgeServer.t.
Proof. solve_decision. Defined.
#[global] Instance CloudEndpoint_eq_dec : EqDecision CloudEndpoint.t.
Proof. solve_decision. Defined.
#[global] Instance NetworkLink_eq_dec : EqDecision NetworkLink.t.
Proof. solve_decision. Defined.

(** ** The generator object *)

Record ScenarioGenerator := mkGen {
  cameras : list Camera.t;
  edge_servers : list EdgeServer.t;
  cloud_endpoints : list CloudEndpoint.t;
  network_links : list NetworkLink.t;
  flows : list VideoFlow.t;
  intents : list Intent.t;
  background_traffic : list BackgroundTraffic.t;
  failures : list FailureEvent.t
}.

Definition set_cameras v (s : ScenarioGenerator) :=
  mkGen v (edge_servers s) (cloud_endpoints s) (network_links s)
        (flows s) (intents s) (background_traffic s) (failures s).
Definition set_edge_servers v (s : ScenarioGenerator) :=
  mkGen (cameras s) v (cloud_endpoints s) (network_links s)
        (flows s) (intents s) (background_traffic s) (failures s).
Definition set_cloud_endpoints v (s : ScenarioGenerator) :=
  mkGen (cameras s) (edge_servers s) v (network_links s)
        (flows s) (intents s) (background_traffic s) (failures s).
Definition set_network_links v (s : ScenarioGenerator) :=
  mkGen (cameras s) (edge_servers s) (cloud_endpoints s) v
        (flows s) (intents s) (background_traffic s) (failures s).
Definition set_flows v (s : ScenarioGenerator) :=
  mkGen (cameras s) (edge_servers s) (cloud_endpoints s) (network_links s)
        v (intents s) (background_traffic s) (failures s).
Definition set_intents v (s : ScenarioGenerator) :=
  mkGen (cameras s) (edge_servers s) (cloud_endpoints s) (network_links s)
        (flows s) v (background_traffic s) (failures s).
Definition set_background_traffic v (s : ScenarioGenerator) :=
  mkGen (cameras s) (edge_servers s) (cloud_endpoints s) (network_links s)
        (flows s) (intents s) v (failures s).
Definition set_failures v (s : ScenarioGenerator) :=
  mkGen (cameras s) (edge_servers s) (cloud_endpoints s) (network_links s)
        (flows s) (intents s) (background_traffic s) v.

(** The lists of [__init__]; the seeding of the random stream is in
    [construct] below. *)
Definition empty_generator : ScenarioGenerator :=
  mkGen [] [] [] [] [] [] [] [].

(** ** String helpers *)

(** [f"{i:02d}"] for a non-negative [i]: decimal digits, padded with a
    zero to two characters. *)
Definition fmt_d (i : nat) : string := NilEmpty.string_of_uint (Nat.to_uint i).

Definition fmt_02d (i : nat) : string :=
  if Nat.ltb i 10 then "0" +:+ fmt_d i else fmt_d i.

(** [s.split('/')[0]]: the part of [s] before the first slash. *)
Fixpoint split_head (s : string) : string :=
  match s with
  | EmptyString => EmptyString
  | String c s' => if Ascii.eqb c "/"%char then EmptyString else String c (split_head s')
  end.

(** [d.get(key, default)] on a dictionary given by its items. *)
Fixpoint dict_get {V : Type} (d : list (string * V)) (key : string) (default : V) : V :=
  match d with
  | [] => default
  | (k, v) :: d' => if String.eqb k key then v else dict_get d' key default
  end.

(** ** Topology *)

Definition priority_map (zone : PolicyZone) : Z :=
  match zone with
  | PZ1_CRITICAL_SECURITY => 1
  | PZ2_BOARDING_GATES => 2
  | PZ3_PUBLIC_AREA => 3
  | PZ4_VIP_RESTRICTED => 2
  | PZ5_ARRIVAL_BAGGAGE => 3
  end.

(** One pass of the loop body of [_add_terminal_cameras]. *)
Definition terminal_camera (terminal area : string) (zone : PolicyZone) (i : nat) : Camera.t :=
  let '(res, fps, bitrate) :=
    match zone with
    | PZ1_CRITICAL_SECURITY => ("4K", 30%Z, F64.dec 250 1)
    | PZ2_BOARDING_GATES | PZ4_VIP_RESTRICTED => ("1080p", 30%Z, F64.dec 80 1)
    | _ => ("1080p", 25%Z, F64.dec 60 1)
    end in
  Camera.mk ("cam_" +:+ terminal +:+ "_" +:+ area +:+ "_" +:+ fmt_02d i)
            zone (terminal +:+ "/" +:+ area) (priority_map zone) res fps bitrate.

Definition _add_terminal_cameras (terminal area : string) (zone : PolicyZone) (count : nat)
    (self : ScenarioGenerator) : ScenarioGenerator :=
  fold_left
    (fun self i => set_cameras (cameras self ++ [terminal_camera terminal area zone i]) self)
    (seq 0 count) self.

Definition camera_to_edge_map : list (string * string) :=
  [("TerminalA", "edge_termA"); ("TerminalB", "edge_termB"); ("TerminalC", "edge_termC");
   ("Security", "edge_security"); ("Perimeter", "edge_perimeter"); ("Staff", "edge_security");
   ("Retail", "edge_termA")].

(** The link appended for one edge server in the first loop of
    [_create_network_links]; the core gateway is skipped. *)
Definition edge_link (edge : EdgeServer.t) : list NetworkLink.t :=
  if String.eqb (EdgeServer.id edge) "core_gateway" then []
  else [NetworkLink.mk (EdgeServer.id edge) "core_gateway"
          (PyInt 10000) (F64.dec 10 1) (F64.dec 0 1) false "wired"].

Definition wan_links : list NetworkLink.t :=
  [NetworkLink.mk "core_gateway" "cloud_primary"
     (PyInt 1000) (F64.dec 150 1) (F64.dec 1 3) true "wan";
   NetworkLink.mk "core_gateway" "cloud_backup"
     (PyInt 1000) (F64.dec 250 1) (F64.dec 1 3) true "wan"].

(** The link appended for one camera in the last loop. *)
Definition camera_link (cam : Camera.t) : NetworkLink.t :=
  let terminal := split_head (Camera.location cam) in
  let edge := dict_get camera_to_edge_map terminal "edge_termA" in
  let is_outdoor := String.eqb terminal "Perimeter" in
  let is_wired := negb is_outdoor in
  let capacity := if is_wired then F64.dec 10000 1 else F64.dec 3000 1 in
  let latency := if is_wired then F64.dec 10 1 else F64.dec 80 1 in
  let loss := if is_wired then F64.dec 1 4 else F64.dec 5 3 in
  let l_type := if is_wired then "wired" else "wireless" in
  NetworkLink.mk (Camera.id cam) edge (PyFloat capacity) latency loss is_outdoor l_type.

Definition append_links (ls : list NetworkLink.t) (self : ScenarioGenerator) : ScenarioGenerator :=
  set_network_links (network_links self ++ ls) self.

Definition _create_network_links (self : ScenarioGenerator) : ScenarioGenerator :=
  let self := fold_left (fun self edge => append_links (edge_link edge) self)
                        (edge_servers self) self in
  let self := append_links wan_links self in
  fold_left (fun self cam => append_links [camera_link cam] self) (cameras self) self.

Definition topology_edge_servers : list EdgeServer.t :=
  [EdgeServer.mk "edge_termA" "Terminal A" 16 64 (F64.dec 100 1);
   EdgeServer.mk "edge_termB" "Terminal B" 16 64 (F64.dec 100 1);
   EdgeServer.mk "edge_termC" "Terminal C" 16 64 (F64.dec 100 1);
   EdgeServer.mk "edge_security" "Security Hub" 32 128 (F64.dec 250 1);
   EdgeServer.mk "edge_perimeter" "Perimeter Control" 16 64 (F64.dec 100 1);
   EdgeServer.mk "core_gateway" "Server Room" 64 128 (F64.dec 1000 1)].

Definition topology_cloud_endpoints : list CloudEndpoint.t :=
  [CloudEndpoint.mk "cloud_primary" "Region-1" 100;
   CloudEndpoint.mk "cloud_backup" "Region-2" 100].

Definition generate_topology (self : ScenarioGenerator) : ScenarioGenerator :=
  let self := _add_terminal_cameras "TerminalA" "CheckIn" PZ3_PUBLIC_AREA 8 self in
  let self := _add_terminal_cameras "TerminalA" "Gates_A" PZ2_BOARDING_GATES 10 self in
  let self := _add_terminal_cameras "TerminalA" "VIP" PZ4_VIP_RESTRICTED 3 self in
  let self := _add_terminal_cameras "TerminalB" "CheckIn" PZ3_PUBLIC_AREA 8 self in
  let self := _add_terminal_cameras "TerminalB" "Gates_B" PZ2_BOARDING_GATES 12 self in
  let self := _add_terminal_cameras "TerminalB" "VIP" PZ4_VIP_RESTRICTED 3 self in
  let self := _add_terminal_cameras "TerminalC" "Gates_C" PZ2_BOARDING_GATES 8 self in
  let self := _add_terminal_cameras "TerminalC" "Baggage" PZ5_ARRIVAL_BAGGAGE 6 self in
  let self := _add_terminal_cameras "TerminalC" "Arrival" PZ5_ARRIVAL_BAGGAGE 4 self in
  let self := _add_terminal_cameras "Security" "Screening" PZ1_CRITICAL_SECURITY 15 self in
  let self := _add_terminal_cameras "Perimeter" "Fence" PZ1_CRITICAL_SECURITY 20 self in
  let self := _add_terminal_cameras "Perimeter" "Apron" PZ1_CRITICAL_SECURITY 12 self in
  let self := _add_terminal_cameras "Staff" "Corridors" PZ1_CRITICAL_SECURITY 8 self in
  let self := _add_terminal_cameras "Retail" "Shops" PZ3_PUBLIC_AREA 10 self in
  let self := set_edge_servers topology_edge_servers self in
  let self := set_cloud_endpoints topology_cloud_endpoints self in
  _create_network_links self.

(** ** Weather physics *)

(** The body of the loop over the links. *)
Definition weather_link (weather_condition : string) (link : NetworkLink.t) : NetworkLink.t :=
  let '(NetworkLink.mk src dst capacity latency loss stochastic link_type) := link in
  if stochastic then
    if String.eqb link_type "wireless" then
      if String.eqb weather_condition "rain" then
        NetworkLink.mk src dst (imul capacity (F64.dec 8 1)) latency (F64.dec 5 2)
                       stochastic link_type
      else if String.eqb weather_condition "storm" then
        NetworkLink.mk src dst (imul capacity (F64.dec 6 1)) latency (F64.dec 15 2)
                       stochastic link_type
      else link
    else if String.eqb link_type "wan" then
      if String.eqb weather_condition "storm" then
        NetworkLink.mk src dst (imul capacity (F64.dec 7 1))
                       (F64.mul latency (F64.dec 15 1)) loss stochastic link_type
      else link
    else link
  else link.

Definition apply_weather_physics (weather_condition : string) (self : ScenarioGenerator)
    : ScenarioGenerator :=
  if String.eqb weather_condition "clear" then self
  else set_network_links (map (weather_link weather_condition) (network_links self)) self.

(** ** Intents *)

Definition push_intent (i : Intent.t) (self : ScenarioGenerator) : ScenarioGenerator :=
  set_intents (intents self ++ [i]) self.

Definition intent_SC1 : Intent.t :=
  Intent.mk "SC1" SAFETY_CRITICAL "Sub-200ms latency for security"
    [PZ1_CRITICAL_SECURITY] [("max_latency", VInt 200)] 1.
Definition intent_SC2 : Intent.t :=
  Intent.mk "SC2" SAFETY_CRITICAL "Prioritize intrusion detection"
    [PZ1_CRITICAL_SECURITY] [("priority_boost", VBool true)] 1.
Definition intent_CM1 : Intent.t :=
  Intent.mk "CM1" CROWD_MONITORING "Optimize check-in density monitoring"
    [PZ3_PUBLIC_AREA] [("min_fps", VInt 15)] 2.
Definition intent_CO1 : Intent.t :=
  Intent.mk "CO1" COST_OPTIMIZATION "Minimize cloud egress cost"
    all_zones [("max_cloud_ratio", VFloat (F64.dec 3 1))] 3.
Definition intent_NQ1 : Intent.t :=
  Intent.mk "NQ1" NETWORK_QOS "Limit packet loss < 1%"
    all_zones [("max_loss", VFloat (F64.dec 1 2))] 2.
Definition intent_FT1 : Intent.t :=
  Intent.mk "FT1" FAULT_TOLERANCE "Failover to nearest edge"
    all_zones [("failover_enabled", VBool true)] 1.
Definition intent_CA1 : Intent.t :=
  Intent.mk "CA1" CONTEXT_AWARE "Peak hour security boost"
    [PZ1_CRITICAL_SECURITY] [("bw_reservation", VStr "50%")] 1.
Definition intent_CA2 : Intent.t :=
  Intent.mk "CA2" CONTEXT_AWARE "EMERGENCY: Max reliability"
    all_zones [("override_cost", VBool true)] 1.

Definition generate_intents (time_context : string) (self : ScenarioGenerator)
    : ScenarioGenerator :=
  let self := set_intents [] self in
  let self := push_intent intent_SC1 self in
  let self := push_intent intent_SC2 self in
  let self := push_intent intent_CM1 self in
  let self := push_intent intent_CO1 self in
  let self := push_intent intent_NQ1 self in
  let self := push_intent intent_FT1 self in
  if String.eqb time_context "peak" then push_intent intent_CA1 self
  else if String.eqb time_context "emergency" then push_intent intent_CA2 self
  else self.

(** ** Flows *)

Definition analytics_map (zone : PolicyZone) : string :=
  match zone with
  | PZ1_CRITICAL_SECURITY => "intrusion"
  | PZ2_BOARDING_GATES => "passenger_flow"
  | PZ3_PUBLIC_AREA => "crowd_analytics"
  | PZ4_VIP_RESTRICTED => "occupancy"
  | PZ5_ARRIVAL_BAGGAGE => "baggage_tracking"
  end.

Record profile := mkProfile { intensity : float; delay : float }.

Definition analytics_profile : list (string * profile) :=
  [("intrusion", mkProfile (F64.dec 8 1) (F64.dec 1500 1));
   ("crowd_analytics", mkProfile (F64.dec 4 1) (F64.dec 600 1));
   ("passenger_flow", mkProfile (F64.dec 5 1) (F64.dec 800 1));
   ("occupancy", mkProfile (F64.dec 1 1) (F64.dec 200 1));
   ("baggage_tracking", mkProfile (F64.dec 6 1) (F64.dec 900 1))].

Definition default_profile : profile := mkProfile (F64.dec 5 1) (F64.dec 500 1).

(** [[e.id for e in self.edge_servers if e.id != "core_gateway"]] *)
Definition non_gateway_ids (edges : list EdgeServer.t) : list string :=
  map EdgeServer.id
      (List.filter (fun e => negb (String.eqb (EdgeServer.id e) "core_gateway")) edges).

Section WithRandom.

Context `{RandomSource}.

(** The destination chosen for one camera. *)
Definition choose_destination (placement_strategy : string) (self : ScenarioGenerator)
    (cam : Camera.t) : Rand string :=
  let local_edge :=
    dict_get camera_to_edge_map (split_head (Camera.location cam)) "edge_termA" in
  if String.eqb placement_strategy "all_edge" then ret local_edge
  else if String.eqb placement_strategy "all_cloud" then ret "cloud_primary"
  else if String.eqb placement_strategy "critical_edge" then
    ret (if decide (Camera.zone cam = PZ1_CRITICAL_SECURITY) then local_edge
         else "cloud_primary")
  else choice "" (non_gateway_ids (edge_servers self) ++ ["cloud_primary"]).

(** The flow built by one pass of the loop of [generate_flows]. *)
Definition camera_flow (placement_strategy : string) (self : ScenarioGenerator)
    (cam : Camera.t) : Rand VideoFlow.t :=
  draw dest <- choose_destination placement_strategy self cam;
  let backup :=
    if negb (String.eqb dest "cloud_primary") then "cloud_primary" else "edge_security" in
  let task := analytics_map (Camera.zone cam) in
  let base_profile := dict_get analytics_profile task default_profile in
  draw jitter <- uniform (F64.dec 9 1) (F64.dec 11 1);
  let final_intensity := F64.min (F64.dec 10 1) (F64.mul (intensity base_profile) jitter) in
  ret (VideoFlow.mk ("flow_" +:+ Camera.id cam) (Camera.id cam) (Camera.zone cam)
         (Camera.id cam) dest backup (Camera.bitrate_mbps cam) (Camera.priority cam)
         task final_intensity (delay base_profile)).

Definition generate_flows (placement_strategy : string) (self : ScenarioGenerator)
    : Rand ScenarioGenerator :=
  let self := set_flows [] self in
  for_loop
    (fun cam self =>
       draw f <- camera_flow placement_strategy self cam;
       ret (set_flows (flows self ++ [f]) self))
    (cameras self) self.

(** ** Background traffic *)

Definition terminals : list string := ["edge_termA"; "edge_termB"; "edge_termC"].

Definition background_flow (i : nat) : Rand BackgroundTraffic.t :=
  draw src <- choice "" terminals;
  draw start <- randint 0 600;
  draw duration <- randint 30 300;
  draw bitrate <- uniform (F64.dec 50 1) (F64.dec 200 1);
  ret (BackgroundTraffic.mk ("bg_" +:+ fmt_d i) src "cloud_primary"
         start duration bitrate "TCP").

(** [range(num_flows)] is empty for a negative [num_flows]. *)
Definition generate_background_traffic (num_flows : Z) (self : ScenarioGenerator)
    : Rand ScenarioGenerator :=
  let self := set_background_traffic [] self in
  for_loop
    (fun i self =>
       draw b <- background_flow i;
       ret (set_background_traffic (background_traffic self ++ [b]) self))
    (seq 0 (Z.to_nat num_flows)) self.

(** ** Failures *)

Definition push_failure (f : FailureEvent.t) (self : ScenarioGenerator) : ScenarioGenerator :=
  set_failures (failures self ++ [f]) self.

Definition generate_failures (self : ScenarioGenerator) : Rand ScenarioGenerator :=
  let self := set_failures [] self in
  draw scenario_roll <- random;
  if F64.ltb (F64.dec 85 2) scenario_roll then
    let targets := non_gateway_ids (edge_servers self) in
    match targets with
    | [] => ret self
    | _ :: _ =>
        draw edge <- choice "" targets;
        draw start <- randint 100 400;
        ret (push_failure (FailureEvent.mk edge "shutdown" start 120 (F64.dec 10 1)) self)
    end
  else if F64.ltb (F64.dec 70 2) scenario_roll then
    let link_target := "core_gateway_cloud_primary" in
    draw start <- randint 50 300;
    ret (push_failure
           (FailureEvent.mk link_target "link_degradation" start 200 (F64.dec 2 1)) self)
  else if F64.ltb (F64.dec 65 2) scenario_roll then
    let targets := non_gateway_ids (edge_servers self) in
    if Nat.leb 2 (length targets) then
      let e1 := List.hd "" targets in
      let e2 := List.last targets "" in
      let self := push_failure (FailureEvent.mk e1 "shutdown" 100 60 (F64.dec 10 1)) self in
      let self := push_failure (FailureEvent.mk e2 "shutdown" 120 60 (F64.dec 10 1)) self in
      ret self
    else ret self
  else ret self.

End WithRandom.

(** ** Export *)

(** The document handed to [json.dump]. *)
#[local] Set Warnings "-register-all".
Inductive json :=
| JInt (z : Z)
| JFloat (x : float)
| JBool (b : bool)
| JStr (s : string)
| JList (l : list json)
| JDict (items : list (string * json)).

Definition json_of_number (n : number) : json :=
  match n with
  | PyInt z => JInt z
  | PyFloat x => JFloat x
  end.

Definition json_of_pyvalue (v : pyvalue) : json :=
  match v with
  | VInt z => JInt z
  | VFloat x => JFloat x
  | VBool b => JBool b
  | VStr s => JStr s
  end.

(** [custom_serializer]: an enum member is written by its name. *)
Definition json_of_zone (z : PolicyZone) : json := JStr (PolicyZone_name z).

Definition asdict_camera (c : Camera.t) : json :=
  JDict [("id", JStr (Camera.id c)); ("zone", json_of_zone (Camera.zone c));
         ("location", JStr (Camera.location c)); ("priority", JInt (Camera.priority c));
         ("resolution", JStr (Camera.resolution c)); ("fps", JInt (Camera.fps c));
         ("bitrate_mbps", JFloat (Camera.bitrate_mbps c))].

Definition asdict_edge (e : EdgeServer.t) : json :=
  JDict [("id", JStr (EdgeServer.id e)); ("location", JStr (EdgeServer.location e));
         ("cpu_cores", JInt (EdgeServer.cpu_cores e));
         ("memory_gb", JInt (EdgeServer.memory_gb e));
         ("network_bandwidth_gbps", JFloat (EdgeServer.network_bandwidth_gbps e))].

Definition json_of_cloud (c : CloudEndpoint.t) : json :=
  JDict [("id", JStr (CloudEndpoint.id c)); ("location", JStr (CloudEndpoint.location c));
         ("bandwidth_gbps", JInt (CloudEndpoint.bandwidth_gbps c))].

Definition asdict_link (l : NetworkLink.t) : json :=
  JDict [("src", JStr (NetworkLink.src l)); ("dst", JStr (NetworkLink.dst l));
         ("capacity_mbps", json_of_number (NetworkLink.capacity_mbps l));
         ("latency_ms", JFloat (NetworkLink.latency_ms l));
         ("packet_loss_rate", JFloat (NetworkLink.packet_loss_rate l));
         ("stochastic", JBool (NetworkLink.stochastic l));
         ("link_type", JStr (NetworkLink.link_type l))].

Definition asdict_flow (f : VideoFlow.t) : json :=
  JDict [("id", JStr (VideoFlow.id f)); ("camera_id", JStr (VideoFlow.camera_id f));
         ("zone", json_of_zone (VideoFlow.zone f)); ("source", JStr (VideoFlow.source f));
         ("destination", JStr (VideoFlow.destination f));
         ("backup_destination", JStr (VideoFlow.backup_destination f));
         ("bitrate_mbps", JFloat (VideoFlow.bitrate_mbps f));
         ("priority", JInt (VideoFlow.priority f));
         ("analytics_type", JStr (VideoFlow.analytics_type f));
         ("compute_intensity", JFloat (VideoFlow.compute_intensity f));
         ("processing_delay_ms", JFloat (VideoFlow.processing_delay_ms f))].

Definition asdict_background (b : BackgroundTraffic.t) : json :=
  JDict [("id", JStr (BackgroundTraffic.id b)); ("src", JStr (BackgroundTraffic.src b));
         ("dst", JStr (BackgroundTraffic.dst b));
         ("start_time_s", JInt (BackgroundTraffic.start_time_s b));
         ("duration_s", JInt (BackgroundTraffic.duration_s b));
         ("bitrate_mbps", JFloat (BackgroundTraffic.bitrate_mbps b));
         ("flow_type", JStr (BackgroundTraffic.flow_type b))].

Definition asdict_intent (i : Intent.t) : json :=
  JDict [("id", JStr (Intent.id i));
         ("category", JStr (IntentCategory_name (Intent.category i)));
         ("description", JStr (Intent.description i));
         ("target_zones", JList (map json_of_zone (Intent.target_zones i)));
         ("constraints",
          JDict (map (fun kv => (fst kv, json_of_pyvalue (snd kv))) (Intent.constraints i)));
         ("priority", JInt (Intent.priority i))].

Definition asdict_failure (f : FailureEvent.t) : json :=
  JDict [("target", JStr (FailureEvent.target f));
         ("failure_type", JStr (FailureEvent.failure_type f));
         ("start_time_s", JInt (FailureEvent.start_time_s f));
         ("duration_s", JInt (FailureEvent.duration_s f));
         ("severity", JFloat (FailureEvent.severity f))].

(** The [scenario] dictionary of [export_scenario]; the file name only
    says where the document is written. *)
Definition export_scenario (scenario_id : Z) (weather_context : string)
    (self : ScenarioGenerator) : json :=
  JDict
    [("scenario_id", JInt scenario_id);
     ("context",
      JDict [("weather", JStr weather_context);
             ("time_of_day",
              JStr (if Nat.ltb 50 (length (background_traffic self))
                    then "peak" else "off_peak"))]);
     ("cameras", JList (map asdict_camera (cameras self)));
     ("edge_servers", JList (map asdict_edge (edge_servers self)));
     ("cloud_endpoints", JList (map json_of_cloud (cloud_endpoints self)));
     ("network_links", JList (map asdict_link (network_links self)));
     ("flows", JList (map asdict_flow (flows self)));
     ("background_traffic", JList (map asdict_background (background_traffic self)));
     ("intents", JList (map asdict_intent (intents self)));
     ("failures", JList (map asdict_failure (failures self)))].

(** ** Call sequences and the process *)

(** One generation call on a generator, with its arguments. *)
Inductive call :=
| GenerateTopology
| ApplyWeatherPhysics (weather_condition : string)
| GenerateIntents (time_context : string)
| GenerateFlows (placement_strategy : string)
| GenerateBackgroundTraffic (num_flows : Z)
| GenerateFailures.

Section Process.

Context `{RandomSource}.

Definition run_call (c : call) (self : ScenarioGenerator) : Rand ScenarioGenerator :=
  match c with
  | GenerateTopology => ret (generate_topology self)
  | ApplyWeatherPhysics w => ret (apply_weather_physics w self)
  | GenerateIntents t => ret (generate_intents t self)
  | GenerateFlows p => generate_flows p self
  | GenerateBackgroundTraffic n => generate_background_traffic n self
  | GenerateFailures => generate_failures self
  end.

Definition run_calls (cs : list call) (self : ScenarioGenerator) : Rand ScenarioGenerator :=
  for_loop run_call cs self.





(** A generator built from [seed_value] and driven through [cs] with
    nothing else drawing from the stream in between. *)
Definition pipeline (seed_value : Z) (cs : list call) : ScenarioGenerator :=
  fst (run_calls cs empty_generator (seed seed_value)).

End Process.

(** ** A replayed random source

    A random source that replays a script of raw draws: every operation
    takes the next raw draw (zero once the script is used up) and maps it
    into the range asked for.  It is the source used to run the generator
    on concrete inputs. *)

Module Replay.

Definition next (g : list nat) : nat * list nat :=
  match g with
  | [] => (0, [])
  | n :: g' => (n, g')
  end.

(** The raw draw [n] read as the two-digit fraction [0.nn]. *)
Definition random (g : list nat) : float * list nat :=
  let (n, g') := next g in (F64.dec (Z.of_nat (n mod 100)) 2, g').

(** The lower end on an even raw draw, the upper end on an odd one. *)
Definition uniform (a b : float) (g : list nat) : float * list nat :=
  let (n, g') := next g in (if Nat.even n then a else b, g').

Definition randint (a b : Z) (g : list nat) : Z * list nat :=
  let (n, g') := next g in ((a + Z.of_nat n mod (b - a + 1))%Z, g').

Definition choice {A : Type} (d : A) (l : list A) (g : list nat) : A * list nat :=
  let (n, g') := next g in (nth (n mod length l) l d, g').

End Replay.

(** The replayed source meets the documented interface of [random];
    [script] gives the raw draws that follow [random.seed(a)]. *)
Definition replay (script : Z -> list nat) : RandomSource.
Proof.
  refine {| rng := list nat; seed := script;
            random := Replay.random; uniform := Replay.uniform;
            randint := Replay.randint; choice := @Replay.choice |}.
  - intros g. unfold Replay.random. destruct (Replay.next g) as [n g']. cbn [fst].
    assert (Hall : forallb
              (fun k => F64.leb (F64.of_Z 0) (F64.dec (Z.of_nat k) 2)
                        && F64.ltb (F64.dec (Z.of_nat k) 2) (F64.of_Z 1))
              (seq 0 100) = true) by (vm_compute; reflexivity).
    rewrite forallb_forall in Hall. specialize (Hall (n mod 100)%nat).
    apply andb_true_iff, Hall, in_seq.
    pose proof (Nat.mod_upper_bound n 100). lia.
  - intros a b g Hab. unfold Replay.uniform. destruct (Replay.next g) as [n g']. cbn [fst].
    assert (Hrefl : forall x : float, F64.is_nan x = false -> F64.leb x x = true).
    { intros [s|s| |s m e] Hx; try discriminate; try (destruct s; reflexivity).
      unfold F64.leb, SFleb, SFcompare.
      destruct s; rewrite Z.compare_refl, Pos.compare_cont_refl; reflexivity. }
    assert (Hnan : F64.is_nan a = false /\ F64.is_nan b = false)
      by (destruct a, b; simpl in *; try discriminate; auto).
    destruct Hnan as [Ha Hb]. destruct (Nat.even n); auto.
  - intros a b g Hab. unfold Replay.randint. destruct (Replay.next g) as [n g']. cbn [fst].
    pose proof (Z.mod_pos_bound (Z.of_nat n) (b - a + 1)). lia.
  - intros A d l g Hl. unfold Replay.choice. destruct (Replay.next g) as [n g']. cbn [fst].
    apply nth_In. apply Nat.mod_upper_bound. destruct l; [congruence | discriminate].
Defined.

(** ** Vocabulary of the properties *)

(** The ids of the entities a generator holds. *)
Definition known_ids (self : ScenarioGenerator) : list string :=
  map Camera.id (cameras self) ++ map EdgeServer.id (edge_servers self)
  ++ map CloudEndpoint.id (cloud_endpoints self).

(** A link joins two known entities, and is stochastic exactly when it is
    wireless or WAN. *)
Definition link_ok (self : ScenarioGenerator) (l : NetworkLink.t) : Prop :=
  In (NetworkLink.src l) (known_ids self) /\
  In (NetworkLink.dst l) (known_ids self) /\
  (NetworkLink.stochastic l = true <->
   NetworkLink.link_type l = "wireless" \/ NetworkLink.link_type l = "wan").

(** The analytics profile that the zone of a camera selects. *)
Definition zone_profile (cam : Camera.t) : profile :=
  dict_get analytics_profile (analytics_map (Camera.zone cam)) default_profile.

(** The jitter drawn in the pass of the flow loop that starts with the
    stream in state [g]: the draw that follows the choice of destination. *)
Definition camera_jitter `{RandomSource} (placement_strategy : string)
    (self : ScenarioGenerator) (cam : Camera.t) (g : rng) : float :=
  fst (uniform (F64.dec 9 1) (F64.dec 11 1)
         (snd (choose_destination placement_strategy self cam g))).

Definition base_intents : list Intent.t :=
  [intent_SC1; intent_SC2; intent_CM1; intent_CO1; intent_NQ1; intent_FT1].

(** The generator right after the first [generate_topology()]. *)
Definition fresh_topology : ScenarioGenerator := generate_topology empty_generator.

(** The cameras that one call of [generate_topology] adds. *)
Definition topology_cameras : list Camera.t := cameras fresh_topology.

(** A replayed source whose script is used up from the start: every raw
    draw is zero. *)
Definition zero_source : RandomSource := replay (fun _ => []).

(** A replayed source with a script of its own for every seed. *)
Definition counting_source : RandomSource :=
  replay (fun a => map (fun k => Z.to_nat (Z.abs a) + k) (seq 0 400)).


(** The reading of the jitter rule under which the processing delay is
    jittered too: the delay of the flow is the base delay of the profile
    times the jitter of that pass. *)
Definition delay_jittered `{RandomSource} (placement_strategy : string)
    (self : ScenarioGenerator) (cam : Camera.t) (g : rng) : Prop :=
  VideoFlow.processing_delay_ms (fst (camera_flow placement_strategy self cam g)) =
  F64.mul (delay (zone_profile cam)) (camera_jitter placement_strategy self cam g).

(** The first camera of the topology. *)
Definition first_camera : Camera.t :=
  terminal_camera "TerminalA" "CheckIn" PZ3_PUBLIC_AREA 0.

(** The state of a generator on which [generate_topology] has run: the
    infrastructure is the one of the template, there are links, and every
    link is well formed. *)
Definition built (self : ScenarioGenerator) : Prop :=
  edge_servers self = topology_edge_servers /\
  cloud_endpoints self = topology_cloud_endpoints /\
  network_links self <> [] /\
  Forall (link_ok self) (network_links self).

(** ** The driver

    The loop of [generate_dataset] builds one generator per scenario,
    each from the seed 42 + i, and exports it.  The model is one pass of
    that loop, up to the arguments of [export_scenario]: the directory,
    the files written and the closing [print] are outside it. *)

Definition time_contexts : list string := ["peak"; "off_peak"; "emergency"].
Definition weather_conditions : list string := ["clear"; "rain"; "storm"].
Definition placement_strategies : list string :=
  ["random"; "all_edge"; "critical_edge"; "all_cloud"].

(** [s.zfill(width)] for a string of digits: zeros in front up to
    [width] characters. *)
Definition zero_pad (width : nat) (s : string) : string :=
  Nat.iter (width - String.length s) (String "0"%char) s.

(** [f"{i:04d}"] for a non-negative [i]. *)
Definition fmt_04d (i : nat) : string := zero_pad 4 (fmt_d i).

Section Driver.

Context `{RandomSource}.

(** [ScenarioGenerator(seed=a)]: the stream is reseeded, whatever its
    state was, and the object starts with empty lists. *)
Definition construct (a : Z) : Rand ScenarioGenerator :=
  fun _ => (empty_generator, seed a).

(** The time context and the weather drawn in a pass, and the generator
    at the moment of the export. *)
Record scenario := mkScenario {
  scenario_weather : string;
  scenario_time_ctx : string;
  scenario_placement : string;
  scenario_bg_load : Z;
  scenario_gen : ScenarioGenerator
}.

(** One pass of the loop of [generate_dataset], up to the export. *)
Definition build_scenario (i : nat) : Rand scenario :=
  draw gen <- construct (42 + Z.of_nat i);
  let gen := generate_topology gen in
  draw weather <- choice "" weather_conditions;
  draw time_ctx <- choice "" time_contexts;
  let gen := apply_weather_physics weather gen in
  let gen := generate_intents time_ctx gen in
  draw placement <- choice "" placement_strategies;
  draw gen <- generate_flows placement gen;
  draw bg_load <- (if String.eqb time_ctx "peak" then randint 60 100 else randint 10 30);
  draw gen <- generate_background_traffic bg_load gen;
  draw gen <- generate_failures gen;
  ret (mkScenario weather time_ctx placement bg_load gen).

End Driver.

(** ** Reading back what the code prints *)

(** [int(s)] for a string of decimal digits. *)
Definition parse_index (s : string) : option nat :=
  option_map Nat.of_uint (NilEmpty.uint_of_string s).

(** A string without a slash. *)
Fixpoint no_slash (s : string) : bool :=
  match s with
  | EmptyString => true
  | String c s' => negb (Ascii.eqb c "/"%char) && no_slash s'
  end.

(** The three shapes of link that [_create_network_links] appends, with
    the physical attributes left open: from an edge to the gateway, from
    the gateway to a cloud endpoint, and from a camera that the generator
    holds to the edge of the camera's terminal. *)
Definition star_link (self : ScenarioGenerator) (l : NetworkLink.t) : Prop :=
  (In (NetworkLink.src l) (non_gateway_ids topology_edge_servers) /\
   NetworkLink.dst l = "core_gateway" /\
   NetworkLink.link_type l = "wired" /\ NetworkLink.stochastic l = false) \/
  (NetworkLink.src l = "core_gateway" /\
   In (NetworkLink.dst l) (map CloudEndpoint.id topology_cloud_endpoints) /\
   NetworkLink.link_type l = "wan" /\ NetworkLink.stochastic l = true) \/
  ((exists cam, In cam (cameras self) /\
                 NetworkLink.src l = Camera.id cam /\
                 NetworkLink.dst l =
                 dict_get camera_to_edge_map (split_head (Camera.location cam))
                          "edge_termA") /\
   In (NetworkLink.dst l) (non_gateway_ids topology_edge_servers) /\
   ((NetworkLink.link_type l = "wired" /\ NetworkLink.stochastic l = false) \/
    (NetworkLink.link_type l = "wireless" /\ NetworkLink.stochastic l = true /\
     NetworkLink.dst l = "edge_perimeter"))).



(** The ids of the infrastructure of the template. *)
Definition infrastructure_ids : list string :=
  (map EdgeServer.id topology_edge_servers
   ++ map CloudEndpoint.id topology_cloud_endpoints)%list.

(** The fourteen batches of cameras of [generate_topology], in the order
    of the calls: terminal, area, zone, count. *)
Definition camera_batches : list (string * string * PolicyZone * nat) :=
  [("TerminalA", "CheckIn", PZ3_PUBLIC_AREA, 8);
   ("TerminalA", "Gates_A", PZ2_BOARDING_GATES, 10);
   ("TerminalA", "VIP", PZ4_VIP_RESTRICTED, 3);
   ("TerminalB", "CheckIn", PZ3_PUBLIC_AREA, 8);
   ("TerminalB", "Gates_B", PZ2_BOARDING_GATES, 12);
   ("TerminalB", "VIP", PZ4_VIP_RESTRICTED, 3);
   ("TerminalC", "Gates_C", PZ2_BOARDING_GATES, 8);
   ("TerminalC", "Baggage", PZ5_ARRIVAL_BAGGAGE, 6);
   ("TerminalC", "Arrival", PZ5_ARRIVAL_BAGGAGE, 4);
   ("Security", "Screening", PZ1_CRITICAL_SECURITY, 15);
   ("Perimeter", "Fence", PZ1_CRITICAL_SECURITY, 20);
   ("Perimeter", "Apron", PZ1_CRITICAL_SECURITY, 12);
   ("Staff", "Corridors", PZ1_CRITICAL_SECURITY, 8);
   ("Retail", "Shops", PZ3_PUBLIC_AREA, 10)]%nat.

(** What the zone of a camera fixes: priority, resolution, frame rate
    and bitrate. *)
Definition camera_by_zone (c : Camera.t) : Prop :=
  Camera.priority c = priority_map (Camera.zone c) /\
  (Camera.resolution c, Camera.fps c, Camera.bitrate_mbps c) =
  match Camera.zone c with
  | PZ1_CRITICAL_SECURITY => ("4K", 30%Z, F64.of_Z 25)
  | PZ2_BOARDING_GATES | PZ4_VIP_RESTRICTED => ("1080p", 30%Z, F64.of_Z 8)
  | PZ3_PUBLIC_AREA | PZ5_ARRIVAL_BAGGAGE => ("1080p", 25%Z, F64.of_Z 6)
  end.

(** What a flow, a failure event and a background flow refer to. *)
Definition flow_refs (self : ScenarioGenerator) (f : VideoFlow.t) : Prop :=
  In (VideoFlow.source f) (map Camera.id (cameras self)) /\
  In (VideoFlow.destination f) (known_ids self) /\
  In (VideoFlow.backup_destination f) (known_ids self).

Definition failure_refs (self : ScenarioGenerator) (f : FailureEvent.t) : Prop :=
  (FailureEvent.failure_type f = "shutdown" /\
   In (FailureEvent.target f) (non_gateway_ids (edge_servers self))) \/
  (FailureEvent.failure_type f = "link_degradation" /\
   FailureEvent.target f = "core_gateway_cloud_primary").

Definition background_refs (self : ScenarioGenerator) (b : BackgroundTraffic.t) : Prop :=
  In (BackgroundTraffic.src b) (map EdgeServer.id (edge_servers self)) /\
  In (BackgroundTraffic.dst b) (map CloudEndpoint.id (cloud_endpoints self)).

(** The state of a generator that calls have brought about: either no
    topology yet, or the infrastructure of the template; cameras, links,
    flows and failures that fit it. *)
Definition consistent (self : ScenarioGenerator) : Prop :=
  ((edge_servers self = [] /\ cloud_endpoints self = [] /\ cameras self = [] /\
    network_links self = []) \/
   (edge_servers self = topology_edge_servers /\
    cloud_endpoints self = topology_cloud_endpoints)) /\
  Forall camera_by_zone (cameras self) /\
  Forall (star_link self) (network_links self) /\
  Forall (flow_refs self) (flows self) /\
  Forall (failure_refs self) (failures self) /\
  Forall (fun b => In (BackgroundTraffic.src b) terminals /\
                   BackgroundTraffic.dst b = "cloud_primary")
         (background_traffic self).

(** [doc[key]] on a document that is a dictionary. *)
Definition json_field (key : string) (doc : json) : option json :=
  match doc with
  | JDict items => dict_get (map (fun kv => (fst kv, Some (snd kv))) items) key None
  | _ => None
  end.

(** * Properties *)

(** ** Comparison of doubles *)


Lemma float_compare_refl (x : float) :
  F64.is_nan x = false -> SFcompare x x = Some Eq.
Proof.
  destruct x as [s|s| |s m e]; simpl; intros Hn; try discriminate;
    try (destruct s; reflexivity).
  destruct s; rewrite Z.compare_refl, Pos.compare_cont_refl; reflexivity.
Qed.



Lemma float_ltb_not_nan (x y : float) :
  F64.ltb x y = true -> F64.is_nan x = false /\ F64.is_nan y = false.
Proof.
  destruct x, y; simpl; intros; try discriminate; auto.
Qed.

Lemma float_leb_refl (x : float) : F64.is_nan x = false -> F64.leb x x = true.
Proof.
  intros Hn. unfold F64.leb, SFleb. rewrite (float_compare_refl x Hn). reflexivity.
Qed.

Lemma float_ltb_leb (x y : float) : F64.ltb x y = true -> F64.leb x y = true.
Proof.
  unfold F64.ltb, F64.leb, SFltb, SFleb.
  destruct (SFcompare x y) as [[]|]; intros; try discriminate; reflexivity.
Qed.



(** [min(a, b)] never exceeds its first argument. *)
Lemma float_min_le_l (a b : float) :
  F64.is_nan a = false -> F64.leb (F64.min a b) a = true.
Proof.
  intros Ha. unfold F64.min. destruct (F64.ltb b a) eqn:E.
  - apply float_ltb_leb, E.
  - apply float_leb_refl, Ha.
Qed.

(** ** The literals and the strings of the source *)

Example literal_0_8 : F64.dec 8 1 = S754_finite false 7205759403792794 (-53).
Proof. vm_compute. reflexivity. Qed.

Example literal_0_85 : F64.dec 85 2 = S754_finite false 7656119366529843 (-53).
Proof. vm_compute. reflexivity. Qed.

Example literal_1_0 : F64.dec 10 1 = F64.of_Z 1.
Proof. vm_compute. reflexivity. Qed.

Example product_300_0_8 : F64.mul (F64.dec 3000 1) (F64.dec 8 1) = F64.dec 2400 1.
Proof. vm_compute. reflexivity. Qed.

Example product_int_1000_0_7 : imul (PyInt 1000) (F64.dec 7 1) = PyFloat (F64.dec 7000 1).
Proof. vm_compute. reflexivity. Qed.

Example first_camera_fields :
  first_camera =
  Camera.mk "cam_TerminalA_CheckIn_00" PZ3_PUBLIC_AREA "TerminalA/CheckIn" 3 "1080p" 25
            (F64.of_Z 6).
Proof. vm_compute. reflexivity. Qed.

Example camera_index_two_digits : fmt_02d 7 = "07" /\ fmt_02d 19 = "19".
Proof. split; reflexivity. Qed.

Example terminal_of_location : split_head "Perimeter/Fence" = "Perimeter".
Proof. reflexivity. Qed.

Example topology_sizes :
  length (cameras fresh_topology) = 127 /\
  length (edge_servers fresh_topology) = 6 /\
  length (cloud_endpoints fresh_topology) = 2 /\
  length (network_links fresh_topology) = 134.
Proof. vm_compute. repeat split. Qed.

(** ** Loops *)

Section Loops.

Context `{RandomSource}.

Lemma bind_run {A B : Type} (m : Rand A) (k : A -> Rand B) (g : rng) :
  bind m k g = k (fst (m g)) (snd (m g)).
Proof. unfold bind. destruct (m g); reflexivity. Qed.

Lemma ret_run {A : Type} (a : A) (g : rng) : ret a g = (a, g).
Proof. reflexivity. Qed.

Lemma for_loop_app {A S : Type} (body : A -> S -> Rand S) (l1 l2 : list A) (self : S) (g : rng) :
  for_loop body (l1 ++ l2) self g =
  for_loop body l2 (fst (for_loop body l1 self g)) (snd (for_loop body l1 self g)).
Proof.
  revert self g. induction l1 as [|a l1 IH]; intros self g; simpl.
  - reflexivity.
  - unfold bind. destruct (body a self g) as [self' g']. apply IH.
Qed.

(** A property kept by every pass of a loop holds when the loop ends. *)
Lemma for_loop_invariant {A S : Type} (P : S -> Prop) (body : A -> S -> Rand S) (l : list A) :
  (forall a self g, P self -> P (fst (body a self g))) ->
  forall self g, P self -> P (fst (for_loop body l self g)).
Proof.
  intros Hbody. induction l as [|a l IH]; intros self g HP; simpl.
  - exact HP.
  - unfold bind. specialize (Hbody a self g HP).
    destruct (body a self g) as [self' g']. apply IH, Hbody.
Qed.

Lemma for_each_length {A B : Type} (body : A -> Rand B) (l : list A) (g : rng) :
  length (fst (for_each body l g)) = length l.
Proof.
  revert g. induction l as [|a l IH]; intros g; simpl.
  - reflexivity.
  - unfold bind. destruct (body a g) as [b g1].
    specialize (IH g1). destruct (for_each body l g1) as [bs g2]. simpl in *. congruence.
Qed.

(** Every value of the loop comes from the body run on its item, in some
    state of the stream. *)
Lemma for_each_Forall2 {A B : Type} (body : A -> Rand B) (l : list A) (g : rng) :
  Forall2 (fun a b => exists g0, b = fst (body a g0)) l (fst (for_each body l g)).
Proof.
  revert g. induction l as [|a l IH]; intros g; simpl.
  - constructor.
  - unfold bind. destruct (body a g) as [b g1] eqn:E.
    specialize (IH g1). destruct (for_each body l g1) as [bs g2]. simpl in *.
    constructor; [exists g; rewrite E; reflexivity | exact IH].
Qed.

End Loops.

(** ** The shape of a topology *)

Lemma add_terminal_cameras_spec (terminal area : string) (zone : PolicyZone) (count : nat)
    (self : ScenarioGenerator) :
  _add_terminal_cameras terminal area zone count self =
  set_cameras (cameras self ++ map (terminal_camera terminal area zone) (seq 0 count)) self.
Proof.
  unfold _add_terminal_cameras. generalize (seq 0 count) as l. intros l. revert self.
  induction l as [|i l IH]; intros self; simpl.
  - rewrite app_nil_r. destruct self; reflexivity.
  - rewrite IH. unfold set_cameras; simpl. rewrite <- app_assoc. reflexivity.
Qed.

Lemma fold_append_links {A : Type} (f : A -> list NetworkLink.t) (l : list A)
    (self : ScenarioGenerator) :
  fold_left (fun self x => append_links (f x) self) l self =
  append_links (flat_map f l) self.
Proof.
  revert self. induction l as [|x l IH]; intros self; simpl.
  - unfold append_links. rewrite app_nil_r. destruct self; reflexivity.
  - rewrite IH. unfold append_links, set_network_links; simpl.
    rewrite <- app_assoc. reflexivity.
Qed.

Lemma create_network_links_spec (self : ScenarioGenerator) :
  _create_network_links self =
  set_network_links
    (network_links self ++ flat_map edge_link (edge_servers self) ++ wan_links
     ++ map camera_link (cameras self)) self.
Proof.
  unfold _create_network_links.
  rewrite (fold_append_links edge_link).
  rewrite (fold_append_links (fun cam => [camera_link cam])).
  unfold append_links, set_network_links; simpl.
  rewrite <- !app_assoc. repeat f_equal.
Qed.

Lemma add_terminal_cameras_compose (terminal area : string) (zone : PolicyZone) (count : nat)
    (cs : list Camera.t) (self : ScenarioGenerator) :
  _add_terminal_cameras terminal area zone count (set_cameras cs self) =
  set_cameras (cs ++ map (terminal_camera terminal area zone) (seq 0 count)) self.
Proof. rewrite add_terminal_cameras_spec. reflexivity. Qed.

Lemma generate_topology_spec (self : ScenarioGenerator) :
  generate_topology self =
  mkGen (cameras self ++ topology_cameras) topology_edge_servers topology_cloud_endpoints
        (network_links self ++ flat_map edge_link topology_edge_servers ++ wan_links
         ++ map camera_link (cameras self ++ topology_cameras))
        (flows self) (intents self) (background_traffic self) (failures self).
Proof.
  unfold generate_topology. cbv zeta.
  replace self with (set_cameras (cameras self) self) at 1 by (destruct self; reflexivity).
  rewrite !add_terminal_cameras_compose.
  rewrite create_network_links_spec.
  unfold set_network_links, set_cloud_endpoints, set_edge_servers, set_cameras.
  cbn [cameras edge_servers cloud_endpoints network_links flows intents
       background_traffic failures].
  rewrite <- !app_assoc.
  replace (map (terminal_camera "TerminalA" "CheckIn" PZ3_PUBLIC_AREA) (seq 0 8) ++ _)%list
    with topology_cameras by (vm_compute; reflexivity).
  reflexivity.
Qed.

(** ** What the drawing methods write *)

Section Methods.

Context `{RandomSource}.

Lemma flows_loop (placement_strategy : string) (l : list Camera.t)
    (self : ScenarioGenerator) (g : rng) :
  for_loop
    (fun cam self =>
       draw f <- camera_flow placement_strategy self cam;
       ret (set_flows (flows self ++ [f]) self)) l self g =
  (set_flows (flows self ++ fst (for_each (camera_flow placement_strategy self) l g)) self,
   snd (for_each (camera_flow placement_strategy self) l g)).
Proof.
  revert self g. induction l as [|cam l IH]; intros self g; simpl.
  - unfold ret; simpl. rewrite app_nil_r. destruct self; reflexivity.
  - rewrite !bind_run, !ret_run. cbn [fst snd]. rewrite IH.
    change (camera_flow placement_strategy
              (set_flows (flows self ++ [(camera_flow placement_strategy self cam g).1]) self))
      with (camera_flow placement_strategy self).
    unfold set_flows; simpl. rewrite <- app_assoc. reflexivity.
Qed.

(** [generate_flows] replaces the flow list by one flow per camera and
    touches nothing else. *)
Lemma generate_flows_spec (placement_strategy : string) (self : ScenarioGenerator) (g : rng) :
  generate_flows placement_strategy self g =
  (set_flows (fst (for_each (camera_flow placement_strategy self) (cameras self) g)) self,
   snd (for_each (camera_flow placement_strategy self) (cameras self) g)).
Proof.
  unfold generate_flows. cbv zeta. rewrite flows_loop. reflexivity.
Qed.

Lemma background_loop (l : list nat) (self : ScenarioGenerator) (g : rng) :
  for_loop
    (fun i self =>
       draw b <- background_flow i;
       ret (set_background_traffic (background_traffic self ++ [b]) self)) l self g =
  (set_background_traffic (background_traffic self ++ fst (for_each background_flow l g)) self,
   snd (for_each background_flow l g)).
Proof.
  revert self g. induction l as [|i l IH]; intros self g; simpl.
  - unfold ret; simpl. rewrite app_nil_r. destruct self; reflexivity.
  - rewrite !bind_run, !ret_run. cbn [fst snd]. rewrite IH.
    unfold set_background_traffic; simpl. rewrite <- app_assoc. reflexivity.
Qed.

Lemma generate_background_traffic_spec (num_flows : Z) (self : ScenarioGenerator) (g : rng) :
  generate_background_traffic num_flows self g =
  (set_background_traffic
     (fst (for_each background_flow (seq 0 (Z.to_nat num_flows)) g)) self,
   snd (for_each background_flow (seq 0 (Z.to_nat num_flows)) g)).
Proof.
  unfold generate_background_traffic. cbv zeta. rewrite background_loop. reflexivity.
Qed.

(** [generate_failures] writes the failure list only. *)
Lemma generate_failures_frame (self : ScenarioGenerator) (g : rng) :
  fst (generate_failures self g) =
  set_failures (failures (fst (generate_failures self g))) self.
Proof.
  unfold generate_failures. cbv zeta. unfold bind.
  destruct (random g) as [r g1].
  change (edge_servers (set_failures [] self)) with (edge_servers self).
  destruct (F64.ltb (F64.dec 85 2) r).
  - destruct (non_gateway_ids (edge_servers self)) as [|t ts]; [reflexivity|].
    destruct (choice "" (t :: ts) g1) as [edge g2].
    destruct (randint 100 400 g2) as [start g3]. reflexivity.
  - destruct (F64.ltb (F64.dec 70 2) r).
    + destruct (randint 50 300 g1) as [start g2]. reflexivity.
    + destruct (F64.ltb (F64.dec 65 2) r); [|reflexivity].
      destruct (Nat.leb 2 (length (non_gateway_ids (edge_servers self)))); reflexivity.
Qed.

End Methods.

(** ** Flows *)

Section Flows.

Context `{RandomSource}.

Lemma for_each_Forall {A B : Type} (Q : B -> Prop) (body : A -> Rand B) (l : list A) (g : rng) :
  (forall a g0, Q (fst (body a g0))) -> Forall Q (fst (for_each body l g)).
Proof.
  intros HQ. revert g. induction l as [|a l IH]; intros g; simpl.
  - constructor.
  - rewrite !bind_run, ret_run. cbn [fst]. constructor; [apply HQ | apply IH].
Qed.

(** The flow of one pass, field by field. *)
Lemma camera_flow_run (placement_strategy : string) (self : ScenarioGenerator)
    (cam : Camera.t) (g : rng) :
  fst (camera_flow placement_strategy self cam g) =
  let dest := fst (choose_destination placement_strategy self cam g) in
  VideoFlow.mk ("flow_" +:+ Camera.id cam) (Camera.id cam) (Camera.zone cam) (Camera.id cam)
    dest
    (if negb (String.eqb dest "cloud_primary") then "cloud_primary" else "edge_security")
    (Camera.bitrate_mbps cam) (Camera.priority cam) (analytics_map (Camera.zone cam))
    (F64.min (F64.dec 10 1)
       (F64.mul (intensity (zone_profile cam))
                (camera_jitter placement_strategy self cam g)))
    (delay (zone_profile cam)).
Proof.
  unfold camera_flow, camera_jitter, zone_profile. rewrite !bind_run, ret_run. reflexivity.
Qed.

Lemma local_edge_not_gateway (terminal : string) :
  dict_get camera_to_edge_map terminal "edge_termA" <> "core_gateway".
Proof.
  unfold camera_to_edge_map. cbn [dict_get].
  repeat match goal with |- context [String.eqb ?a ?b] => destruct (String.eqb a b) end;
    discriminate.
Qed.

Lemma non_gateway_ids_spec (edges : list EdgeServer.t) (x : string) :
  In x (non_gateway_ids edges) -> x <> "core_gateway".
Proof.
  unfold non_gateway_ids. rewrite in_map_iff. intros (e & <- & He).
  apply filter_In in He as [_ He]. apply negb_true_iff in He.
  apply String.eqb_neq, He.
Qed.

Lemma choose_destination_not_gateway (placement_strategy : string)
    (self : ScenarioGenerator) (cam : Camera.t) (g : rng) :
  fst (choose_destination placement_strategy self cam g) <> "core_gateway".
Proof.
  unfold choose_destination. cbv zeta.
  destruct (String.eqb placement_strategy "all_edge"); [apply local_edge_not_gateway|].
  destruct (String.eqb placement_strategy "all_cloud"); [discriminate|].
  destruct (String.eqb placement_strategy "critical_edge").
  - cbn [ret fst]. case_decide; [apply local_edge_not_gateway | discriminate].
  - pose proof (choice_In string "" (non_gateway_ids (edge_servers self) ++ ["cloud_primary"]) g)
      as Hin.
    apply in_app_or in Hin as [Hin | [<- | []]].
    + apply (non_gateway_ids_spec _ _ Hin).
    + discriminate.
    + intros E. apply app_eq_nil in E as [_ E]. discriminate.
Qed.

(** C1. Whatever the placement strategy, no generated flow has the core
    gateway as destination, the destination and the backup destination
    of a flow differ, and the backup is [cloud_primary] when the
    destination is not [cloud_primary] and [edge_security] when it is. *)
Theorem flow_destinations (placement_strategy : string) (self : ScenarioGenerator) (g : rng) :
  Forall
    (fun f =>
       VideoFlow.destination f <> "core_gateway" /\
       VideoFlow.destination f <> VideoFlow.backup_destination f /\
       (VideoFlow.destination f <> "cloud_primary" ->
        VideoFlow.backup_destination f = "cloud_primary") /\
       (VideoFlow.destination f = "cloud_primary" ->
        VideoFlow.backup_destination f = "edge_security"))
    (flows (fst (generate_flows placement_strategy self g))).
Proof.
  rewrite generate_flows_spec. cbn [fst flows set_flows].
  apply for_each_Forall. intros cam g0. rewrite camera_flow_run. cbv zeta.
  cbn [VideoFlow.destination VideoFlow.backup_destination].
  pose proof (choose_destination_not_gateway placement_strategy self cam g0) as Hgw.
  destruct (String.eqb_spec (fst (choose_destination placement_strategy self cam g0))
                            "cloud_primary") as [E | E]; cbn [negb].
  - rewrite E. repeat split; try discriminate; congruence.
  - repeat split; try congruence.
Qed.

Lemma for_each_map {A B C : Type} (body : A -> Rand B) (f : B -> C) (h : A -> C)
    (l : list A) (g : rng) :
  (forall a g0, f (fst (body a g0)) = h a) ->
  map f (fst (for_each body l g)) = map h l.
Proof.
  intros Hf. revert g. induction l as [|a l IH]; intros g; simpl.
  - reflexivity.
  - rewrite !bind_run, ret_run. cbn [fst map]. rewrite Hf, IH. reflexivity.
Qed.

Lemma topology_camera_ids_NoDup : List.NoDup (map Camera.id topology_cameras).
Proof. apply NoDup_ListNoDup. apply (bool_decide_unpack _). vm_compute. exact I. Qed.

(** C6. For every placement strategy the flow list is the camera list
    taken one to one and in order: the flow of a camera carries the id of
    the camera as [camera_id], and its bitrate and its priority.  On the
    topology as first built, where the camera ids are distinct, every
    camera id is the [camera_id] of exactly one flow. *)
Theorem one_flow_per_camera (placement_strategy : string) (self : ScenarioGenerator) (g : rng) :
  let self' := fst (generate_flows placement_strategy self g) in
  let fresh' := fst (generate_flows placement_strategy fresh_topology g) in
  cameras self' = cameras self /\
  length (flows self') = length (cameras self') /\
  Forall2
    (fun cam f =>
       VideoFlow.camera_id f = Camera.id cam /\
       VideoFlow.bitrate_mbps f = Camera.bitrate_mbps cam /\
       VideoFlow.priority f = Camera.priority cam)
    (cameras self') (flows self') /\
  Forall
    (fun cam =>
       count_occ String.string_dec (map VideoFlow.camera_id (flows fresh')) (Camera.id cam) = 1)
    (cameras fresh').
Proof.
  cbv zeta. rewrite !generate_flows_spec. cbn [fst flows cameras set_flows].
  split; [reflexivity|]. split; [apply for_each_length|]. split.
  - eapply Forall2_impl; [apply for_each_Forall2|].
    intros cam f [g0 ->]. rewrite camera_flow_run. cbv zeta. repeat split.
  - rewrite (for_each_map _ VideoFlow.camera_id Camera.id)
      by (intros a g0; rewrite camera_flow_run; reflexivity).
    apply List.Forall_forall. intros cam Hcam.
    apply (proj1 (NoDup_count_occ' String.string_dec _) topology_camera_ids_NoDup).
    apply in_map, Hcam.
Qed.

(** C8, as amended. For every generated flow the base compute intensity
    of the profile that the zone selects is multiplied by a jitter drawn
    by [uniform] from [0.9, 1.1] and cut at 1.0, so that the compute
    intensity never exceeds 1.0; the processing delay is the base delay
    of the profile, without jitter. *)
Theorem intensity_jitter (placement_strategy : string) (self : ScenarioGenerator) (g : rng) :
  Forall2
    (fun cam f =>
       exists g0,
         let jitter := camera_jitter placement_strategy self cam g0 in
         F64.leb (F64.dec 9 1) jitter = true /\
         F64.leb jitter (F64.dec 11 1) = true /\
         VideoFlow.compute_intensity f =
           F64.min (F64.dec 10 1) (F64.mul (intensity (zone_profile cam)) jitter) /\
         F64.leb (VideoFlow.compute_intensity f) (F64.dec 10 1) = true /\
         VideoFlow.processing_delay_ms f = delay (zone_profile cam))
    (cameras self) (flows (fst (generate_flows placement_strategy self g))).
Proof.
  rewrite generate_flows_spec. cbn [fst flows set_flows].
  eapply Forall2_impl; [apply for_each_Forall2|].
  intros cam f [g0 ->]. exists g0. rewrite camera_flow_run. cbv zeta.
  cbn [VideoFlow.compute_intensity VideoFlow.processing_delay_ms].
  assert (Hr : F64.leb (F64.dec 9 1) (F64.dec 11 1) = true) by (vm_compute; reflexivity).
  destruct (uniform_range (F64.dec 9 1) (F64.dec 11 1)
              (snd (choose_destination placement_strategy self cam g0)) Hr) as [Hlo Hhi].
  repeat split; try assumption.
  apply float_min_le_l. reflexivity.
Qed.

End Flows.

(** C8, the claim as stated fails: with a jitter of 0.9 drawn for the
    first camera, the delay of its flow is the base delay 60.0 of its
    profile and not 60.0 * 0.9 = 54.0. *)
Lemma delay_is_not_jittered :
  @camera_jitter zero_source "all_edge" fresh_topology first_camera (@seed zero_source 42)
    = F64.dec 9 1 /\
  hd_error (cameras fresh_topology) = Some first_camera /\
  VideoFlow.processing_delay_ms
    (fst (@camera_flow zero_source "all_edge" fresh_topology first_camera (@seed zero_source 42)))
    = F64.dec 600 1 /\
  F64.mul (F64.dec 600 1) (F64.dec 9 1) = F64.dec 540 1 /\
  ~ @delay_jittered zero_source "all_edge" fresh_topology first_camera (@seed zero_source 42).
Proof.
  repeat split; try (vm_compute; reflexivity).
  unfold delay_jittered. vm_compute. discriminate.
Qed.

(** ** Intents *)

(** C7. Whatever the generator held before, [generate_intents] leaves
    the six base intents, followed by the peak-hour security boost for
    "peak", by the emergency override for "emergency", and by nothing
    for "off_peak"; both extra intents are of category CONTEXT_AWARE.
    The list has 7, 7 and 6 elements. *)
Theorem intents_by_context (self : ScenarioGenerator) :
  length base_intents = 6 /\
  intents (generate_intents "peak" self) = (base_intents ++ [intent_CA1])%list /\
  intents (generate_intents "emergency" self) = (base_intents ++ [intent_CA2])%list /\
  intents (generate_intents "off_peak" self) = base_intents /\
  Intent.category intent_CA1 = CONTEXT_AWARE /\
  Intent.description intent_CA1 = "Peak hour security boost" /\
  Intent.category intent_CA2 = CONTEXT_AWARE /\
  Intent.description intent_CA2 = "EMERGENCY: Max reliability" /\
  length (intents (generate_intents "peak" self)) = 7 /\
  length (intents (generate_intents "emergency" self)) = 7 /\
  length (intents (generate_intents "off_peak" self)) = 6.
Proof.
  repeat split.
Qed.

(** For any time context the list starts with the six base intents and
    has at most one more. *)
Lemma intents_base_prefix (time_context : string) (self : ScenarioGenerator) :
  exists extra,
    intents (generate_intents time_context self) = (base_intents ++ extra)%list /\
    length extra <= 1.
Proof.
  unfold generate_intents. cbv zeta.
  destruct (String.eqb time_context "peak").
  - exists [intent_CA1]. split; [reflexivity | simpl; lia].
  - destruct (String.eqb time_context "emergency").
    + exists [intent_CA2]. split; [reflexivity | simpl; lia].
    + exists []. split; [reflexivity | simpl; lia].
Qed.

(** ** Weather *)

Lemma weather_link_frame (weather_condition : string) (l : NetworkLink.t) :
  NetworkLink.src (weather_link weather_condition l) = NetworkLink.src l /\
  NetworkLink.dst (weather_link weather_condition l) = NetworkLink.dst l /\
  NetworkLink.stochastic (weather_link weather_condition l) = NetworkLink.stochastic l /\
  NetworkLink.link_type (weather_link weather_condition l) = NetworkLink.link_type l.
Proof.
  destruct l as [src dst cap lat loss st ty]. unfold weather_link.
  destruct st; [|repeat split].
  destruct (String.eqb ty "wireless").
  - destruct (String.eqb weather_condition "rain"); [repeat split|].
    destruct (String.eqb weather_condition "storm"); repeat split.
  - destruct (String.eqb ty "wan"); [|repeat split].
    destruct (String.eqb weather_condition "storm"); repeat split.
Qed.

Lemma weather_link_stable (weather_condition : string) (l : NetworkLink.t) :
  NetworkLink.stochastic l = false -> weather_link weather_condition l = l.
Proof.
  destruct l as [src dst cap lat loss st ty]. cbn [NetworkLink.stochastic].
  intros ->. reflexivity.
Qed.

Lemma Forall2_map_r {A B : Type} (R : A -> B -> Prop) (f : A -> B) (l : list A) :
  (forall a, R a (f a)) -> Forall2 R l (map f l).
Proof.
  intros HR. induction l as [|a l IH]; simpl; constructor; auto.
Qed.

(** C9. With "clear" the generator is returned as it is, so every link
    keeps its capacity, latency and loss rate.  With any condition the
    call keeps the link list in place link by link, returns every link
    with [stochastic = false] unchanged, leaves cameras, edge servers,
    cloud endpoints, flows, intents, background traffic and failures as
    they were, and does not draw from the random stream. *)
Theorem weather_frame `{RandomSource} (weather_condition : string)
    (self : ScenarioGenerator) (g : rng) :
  let self' := apply_weather_physics weather_condition self in
  apply_weather_physics "clear" self = self /\
  cameras self' = cameras self /\
  edge_servers self' = edge_servers self /\
  cloud_endpoints self' = cloud_endpoints self /\
  flows self' = flows self /\
  intents self' = intents self /\
  background_traffic self' = background_traffic self /\
  failures self' = failures self /\
  Forall2 (fun l l' => NetworkLink.stochastic l = false -> l' = l)
          (network_links self) (network_links self') /\
  run_call (ApplyWeatherPhysics weather_condition) self g = (self', g).
Proof.
  cbv zeta. split; [reflexivity|].
  cbn [run_call ret].
  unfold apply_weather_physics.
  destruct (String.eqb weather_condition "clear").
  - repeat split. induction (network_links self); constructor; auto.
  - repeat split. cbn [network_links set_network_links].
    apply Forall2_map_r. intros l. apply weather_link_stable.
Qed.

Lemma camera_link_cases (cam : Camera.t) :
  (exists edge,
     camera_link cam =
     NetworkLink.mk (Camera.id cam) edge (PyFloat (F64.dec 10000 1)) (F64.dec 10 1)
                    (F64.dec 1 4) false "wired") \/
  camera_link cam =
  NetworkLink.mk (Camera.id cam) "edge_perimeter" (PyFloat (F64.dec 3000 1)) (F64.dec 80 1)
                 (F64.dec 5 3) true "wireless".
Proof.
  unfold camera_link. cbv zeta.
  destruct (String.eqb_spec (split_head (Camera.location cam)) "Perimeter") as [-> | _].
  - right. reflexivity.
  - left. eexists. reflexivity.
Qed.

Lemma fresh_topology_links :
  network_links fresh_topology =
  (flat_map edge_link topology_edge_servers ++ wan_links
   ++ map camera_link topology_cameras)%list.
Proof. unfold fresh_topology. rewrite generate_topology_spec. reflexivity. Qed.

(** C3. On the topology as first built, "rain" and "storm" rewrite the
    link list link by link.  A wireless link is stochastic with capacity
    300.0; rain sets its loss rate to 0.05 and its capacity to
    300.0 * 0.8, which is 240.0; storm sets the loss rate to 0.15 and the
    capacity to 300.0 * 0.6.  A WAN link is stochastic with capacity
    1000; storm sets its capacity to 1000 * 0.7, which is 700.0, and
    multiplies its latency by 1.5, and rain returns it unchanged.  The
    WAN link to [cloud_primary] goes from latency 15.0 to 22.5. *)
Theorem weather_on_fresh_topology :
  network_links (apply_weather_physics "rain" fresh_topology)
    = map (weather_link "rain") (network_links fresh_topology) /\
  network_links (apply_weather_physics "storm" fresh_topology)
    = map (weather_link "storm") (network_links fresh_topology) /\
  Forall
    (fun l =>
       (NetworkLink.link_type l = "wireless" ->
        NetworkLink.stochastic l = true /\
        NetworkLink.capacity_mbps l = PyFloat (F64.of_Z 300) /\
        NetworkLink.packet_loss_rate (weather_link "rain" l) = F64.dec 5 2 /\
        NetworkLink.capacity_mbps (weather_link "rain" l)
          = imul (NetworkLink.capacity_mbps l) (F64.dec 8 1) /\
        NetworkLink.capacity_mbps (weather_link "rain" l) = PyFloat (F64.of_Z 240) /\
        NetworkLink.latency_ms (weather_link "rain" l) = NetworkLink.latency_ms l /\
        NetworkLink.packet_loss_rate (weather_link "storm" l) = F64.dec 15 2 /\
        NetworkLink.capacity_mbps (weather_link "storm" l)
          = imul (NetworkLink.capacity_mbps l) (F64.dec 6 1) /\
        NetworkLink.capacity_mbps (weather_link "storm" l) = PyFloat (F64.of_Z 180) /\
        NetworkLink.latency_ms (weather_link "storm" l) = NetworkLink.latency_ms l) /\
       (NetworkLink.link_type l = "wan" ->
        NetworkLink.stochastic l = true /\
        NetworkLink.capacity_mbps l = PyInt 1000 /\
        NetworkLink.capacity_mbps (weather_link "storm" l)
          = imul (NetworkLink.capacity_mbps l) (F64.dec 7 1) /\
        NetworkLink.capacity_mbps (weather_link "storm" l) = PyFloat (F64.of_Z 700) /\
        NetworkLink.latency_ms (weather_link "storm" l)
          = F64.mul (NetworkLink.latency_ms l) (F64.dec 15 1) /\
        NetworkLink.packet_loss_rate (weather_link "storm" l)
          = NetworkLink.packet_loss_rate l /\
        weather_link "rain" l = l))
    (network_links fresh_topology) /\
  In (NetworkLink.mk "core_gateway" "cloud_primary" (PyInt 1000) (F64.dec 150 1)
        (F64.dec 1 3) true "wan")
     (network_links fresh_topology) /\
  In (NetworkLink.mk "core_gateway" "cloud_primary" (PyFloat (F64.of_Z 700)) (F64.dec 225 1)
        (F64.dec 1 3) true "wan")
     (network_links (apply_weather_physics "storm" fresh_topology)) /\
  In (NetworkLink.mk "cam_Perimeter_Fence_00" "edge_perimeter" (PyFloat (F64.of_Z 240))
        (F64.dec 80 1) (F64.dec 5 2) true "wireless")
     (network_links (apply_weather_physics "rain" fresh_topology)).
Proof.
  split; [reflexivity|]. split; [reflexivity|]. split.
  - apply List.Forall_forall. intros l Hin. rewrite fresh_topology_links in Hin.
    apply in_app_or in Hin as [Hin | Hin]; [|apply in_app_or in Hin as [Hin | Hin]].
    + simpl in Hin.
      repeat (destruct Hin as [<- | Hin]; [split; intros Ht; discriminate Ht|]).
      destruct Hin.
    + simpl in Hin.
      repeat (destruct Hin as [<- | Hin];
              [split; intros Ht; [discriminate Ht | vm_compute; repeat split]|]).
      destruct Hin.
    + apply in_map_iff in Hin as (cam & <- & _).
      destruct (camera_link_cases cam) as [[edge ->] | ->].
      * split; intros Ht; discriminate Ht.
      * split; intros Ht; [|discriminate Ht].
        cbn [weather_link NetworkLink.link_type NetworkLink.stochastic
             NetworkLink.capacity_mbps NetworkLink.packet_loss_rate NetworkLink.latency_ms].
        repeat split; vm_compute; reflexivity.
  - split; [|split].
    + rewrite fresh_topology_links. apply in_or_app. right. apply in_or_app. left.
      left. reflexivity.
    + apply list_elem_of_In. apply (bool_decide_unpack _). vm_compute. exact I.
    + apply list_elem_of_In. apply (bool_decide_unpack _). vm_compute. exact I.
Qed.

(** ** Links join known entities *)

Lemma link_ok_intro (self : ScenarioGenerator) (l : NetworkLink.t) :
  (In (NetworkLink.src l) (map Camera.id (cameras self)) \/
   In (NetworkLink.src l) (map EdgeServer.id (edge_servers self)) \/
   In (NetworkLink.src l) (map CloudEndpoint.id (cloud_endpoints self))) ->
  (In (NetworkLink.dst l) (map Camera.id (cameras self)) \/
   In (NetworkLink.dst l) (map EdgeServer.id (edge_servers self)) \/
   In (NetworkLink.dst l) (map CloudEndpoint.id (cloud_endpoints self))) ->
  (NetworkLink.stochastic l = true <->
   NetworkLink.link_type l = "wireless" \/ NetworkLink.link_type l = "wan") ->
  link_ok self l.
Proof.
  intros Hs Hd Hst. unfold link_ok, known_ids. rewrite !in_app_iff. tauto.
Qed.

Lemma link_ok_elim (self : ScenarioGenerator) (l : NetworkLink.t) :
  link_ok self l ->
  (In (NetworkLink.src l) (map Camera.id (cameras self)) \/
   In (NetworkLink.src l) (map EdgeServer.id (edge_servers self)) \/
   In (NetworkLink.src l) (map CloudEndpoint.id (cloud_endpoints self))) /\
  (In (NetworkLink.dst l) (map Camera.id (cameras self)) \/
   In (NetworkLink.dst l) (map EdgeServer.id (edge_servers self)) \/
   In (NetworkLink.dst l) (map CloudEndpoint.id (cloud_endpoints self))) /\
  (NetworkLink.stochastic l = true <->
   NetworkLink.link_type l = "wireless" \/ NetworkLink.link_type l = "wan").
Proof.
  unfold link_ok, known_ids. rewrite !in_app_iff. tauto.
Qed.

Lemma local_edge_is_edge (terminal : string) :
  In (dict_get camera_to_edge_map terminal "edge_termA")
     (map EdgeServer.id topology_edge_servers).
Proof.
  unfold camera_to_edge_map. cbn [dict_get].
  repeat match goal with |- context [String.eqb ?a ?b] => destruct (String.eqb a b) end;
    simpl; tauto.
Qed.

Lemma camera_link_ok (self : ScenarioGenerator) (cam : Camera.t) :
  edge_servers self = topology_edge_servers ->
  In cam (cameras self) ->
  link_ok self (camera_link cam).
Proof.
  intros He Hc. apply link_ok_intro.
  - left. exact (in_map Camera.id _ _ Hc).
  - right. left. rewrite He. unfold camera_link. cbv zeta.
    cbn [NetworkLink.dst]. apply local_edge_is_edge.
  - destruct (camera_link_cases cam) as [[edge ->] | ->];
      cbn [NetworkLink.stochastic NetworkLink.link_type].
    + split; [discriminate | intros [E | E]; discriminate E].
    + split; [left; reflexivity | reflexivity].
Qed.

Lemma generate_topology_built (self : ScenarioGenerator) :
  network_links self = [] \/ built self -> built (generate_topology self).
Proof.
  intros Hself. rewrite generate_topology_spec. unfold built.
  cbn [edge_servers cloud_endpoints network_links].
  split; [reflexivity|]. split; [reflexivity|]. split.
  - intros E. apply app_eq_nil in E as [_ E]. discriminate E.
  - rewrite !Forall_app. repeat split.
    + destruct Hself as [-> | (He & Hc & _ & Hall)]; [constructor|].
      eapply Forall_impl; [exact Hall|].
      intros l Hl. apply link_ok_elim in Hl as (Hs & Hd & Hst).
      rewrite He, Hc in *.
      apply link_ok_intro; cbn [cameras edge_servers cloud_endpoints]; try assumption;
        rewrite map_app, in_app_iff; tauto.
    + apply List.Forall_forall. intros l Hin. simpl in Hin.
      repeat (destruct Hin as [<- | Hin];
              [apply link_ok_intro; cbn; [tauto | tauto | split; [discriminate |
                 intros [E | E]; discriminate E]]|]).
      destruct Hin.
    + apply List.Forall_forall. intros l Hin. simpl in Hin.
      repeat (destruct Hin as [<- | Hin];
              [apply link_ok_intro; cbn; [tauto | tauto | split; [tauto | reflexivity]]|]).
      destruct Hin.
    + apply List.Forall_forall. intros l Hin. apply in_map_iff in Hin as (cam & <- & Hc).
      apply camera_link_ok; [reflexivity | exact Hc].
Qed.

Lemma weather_built (weather_condition : string) (self : ScenarioGenerator) :
  built self -> built (apply_weather_physics weather_condition self).
Proof.
  intros (He & Hc & Hne & Hall). unfold apply_weather_physics.
  destruct (String.eqb weather_condition "clear"); [repeat split; assumption|].
  unfold built. cbn [edge_servers cloud_endpoints network_links set_network_links].
  repeat split; try assumption.
  - destruct (network_links self); [congruence | discriminate].
  - apply List.Forall_forall. intros l' Hin. apply in_map_iff in Hin as (l & <- & Hin).
    rewrite List.Forall_forall in Hall. specialize (Hall l Hin).
    destruct (weather_link_frame weather_condition l) as (Es & Ed & Est & Ety).
    unfold link_ok in *. rewrite Es, Ed, Est, Ety. exact Hall.
Qed.

Lemma weather_unbuilt (weather_condition : string) (self : ScenarioGenerator) :
  network_links self = [] ->
  network_links (apply_weather_physics weather_condition self) = [].
Proof.
  intros E. unfold apply_weather_physics.
  destruct (String.eqb weather_condition "clear"); [exact E|].
  cbn [network_links set_network_links]. rewrite E. reflexivity.
Qed.

Lemma generate_intents_frame (time_context : string) (self : ScenarioGenerator) :
  generate_intents time_context self =
  set_intents (intents (generate_intents time_context self)) self.
Proof.
  unfold generate_intents. cbv zeta.
  destruct (String.eqb time_context "peak"); [reflexivity|].
  destruct (String.eqb time_context "emergency"); reflexivity.
Qed.

Section Reachable.

Context `{RandomSource}.

(** Every call other than [generate_topology] keeps cameras, edge
    servers and cloud endpoints, and keeps the links up to weather. *)
Lemma run_call_built (c : call) (self : ScenarioGenerator) (g : rng) :
  built self -> built (fst (run_call c self g)).
Proof.
  intros Hb. destruct c as [|w|t|p|n|]; cbn [run_call ret fst].
  - apply generate_topology_built. right. exact Hb.
  - apply weather_built, Hb.
  - rewrite generate_intents_frame. exact Hb.
  - rewrite generate_flows_spec. exact Hb.
  - rewrite generate_background_traffic_spec. exact Hb.
  - rewrite generate_failures_frame. exact Hb.
Qed.

Lemma run_call_unbuilt (c : call) (self : ScenarioGenerator) (g : rng) :
  network_links self = [] \/ built self ->
  network_links (fst (run_call c self g)) = [] \/ built (fst (run_call c self g)).
Proof.
  intros [E | Hb]; [|right; apply run_call_built, Hb].
  destruct c as [|w|t|p|n|]; cbn [run_call ret fst].
  - right. apply generate_topology_built. left. exact E.
  - left. apply weather_unbuilt, E.
  - left. rewrite generate_intents_frame. exact E.
  - left. rewrite generate_flows_spec. exact E.
  - left. rewrite generate_background_traffic_spec. exact E.
  - left. rewrite generate_failures_frame. exact E.
Qed.

(** C5. Take a generator as constructed, any calls, [generate_topology],
    and any further calls.  The generator then has links, the source and
    the destination of every link are ids of its cameras, edge servers
    or cloud endpoints, and a link is stochastic exactly when its type
    is "wireless" or "wan". *)
Theorem links_join_known_entities (a : Z) (before after : list call) :
  let self := pipeline a (before ++ GenerateTopology :: after) in
  network_links self <> [] /\
  Forall (link_ok self) (network_links self).
Proof.
  cbv zeta. unfold pipeline, run_calls. rewrite for_loop_app.
  set (s1 := fst (for_loop run_call before empty_generator (seed a))).
  set (g1 := snd (for_loop run_call before empty_generator (seed a))).
  assert (H1 : network_links s1 = [] \/ built s1).
  { apply (for_loop_invariant (fun s => network_links s = [] \/ built s)).
    - intros c s g. apply run_call_unbuilt.
    - left. reflexivity. }
  cbn [for_loop]. rewrite bind_run. cbn [run_call ret fst snd].
  assert (H2 : built (fst (for_loop run_call after (generate_topology s1) g1))).
  { apply (for_loop_invariant built).
    - intros c s g. apply run_call_built.
    - apply generate_topology_built, H1. }
  destruct H2 as (_ & _ & Hne & Hall). split; assumption.
Qed.

End Reachable.

(** ** Which lists a call resets *)

(** C10, as amended. [generate_intents], [generate_flows],
    [generate_background_traffic] and [generate_failures] do not depend on
    the previous content of the list they write, so that after any call
    the list holds the results of that call only; there are as many
    flows as cameras and as many background flows as asked for.
    [generate_topology] appends to the cameras and to the links and
    replaces edge servers and cloud endpoints by the template.  On its
    second call on a generator it doubles the camera list, and it
    appends the edge and WAN links again together with one link for
    every camera of the doubled list: the link list becomes two copies of
    the first one followed by a third copy of every camera link. *)
Theorem lists_reset_topology_appends `{RandomSource} (self : ScenarioGenerator) (g : rng)
    (time_context placement_strategy : string) (num_flows : Z)
    (old_intents : list Intent.t) (old_flows : list VideoFlow.t)
    (old_background : list BackgroundTraffic.t) (old_failures : list FailureEvent.t) :
  generate_intents time_context (set_intents old_intents self)
    = generate_intents time_context (set_intents [] self) /\
  generate_flows placement_strategy (set_flows old_flows self) g
    = generate_flows placement_strategy (set_flows [] self) g /\
  generate_background_traffic num_flows (set_background_traffic old_background self) g
    = generate_background_traffic num_flows (set_background_traffic [] self) g /\
  generate_failures (set_failures old_failures self) g
    = generate_failures (set_failures [] self) g /\
  length (flows (fst (generate_flows placement_strategy self g)))
    = length (cameras (fst (generate_flows placement_strategy self g))) /\
  length (background_traffic (fst (generate_background_traffic num_flows self g)))
    = Z.to_nat num_flows /\
  cameras (generate_topology self) = (cameras self ++ topology_cameras)%list /\
  network_links (generate_topology self)
    = (network_links self ++ flat_map edge_link topology_edge_servers ++ wan_links
       ++ map camera_link (cameras self ++ topology_cameras))%list /\
  edge_servers (generate_topology self) = topology_edge_servers /\
  cloud_endpoints (generate_topology self) = topology_cloud_endpoints /\
  cameras (generate_topology fresh_topology) = (topology_cameras ++ topology_cameras)%list /\
  network_links (generate_topology fresh_topology)
    = (network_links fresh_topology ++ network_links fresh_topology
       ++ map camera_link topology_cameras)%list /\
  edge_servers (generate_topology fresh_topology) = edge_servers fresh_topology /\
  cloud_endpoints (generate_topology fresh_topology) = cloud_endpoints fresh_topology.
Proof.
  split; [reflexivity|]. split; [reflexivity|]. split; [reflexivity|].
  split; [reflexivity|].
  split; [rewrite generate_flows_spec; apply for_each_length|].
  split.
  { rewrite generate_background_traffic_spec. cbn [fst background_traffic set_background_traffic].
    rewrite for_each_length. apply length_seq. }
  rewrite !generate_topology_spec. cbn [cameras network_links edge_servers cloud_endpoints].
  change (cameras fresh_topology) with topology_cameras.
  do 5 (split; [reflexivity|]). split; [|split; reflexivity].
  change (network_links empty_generator) with (@nil NetworkLink.t).
  cbn [app]. rewrite map_app. f_equal.
Qed.

(** C10, the claim as stated fails: the second [generate_topology] does
    not leave two copies of the 134 links of the first, it leaves 395
    links, the link of the first camera among them three times. *)
Lemma second_topology_does_not_double_links :
  length (network_links fresh_topology) = 134 /\
  length (network_links (generate_topology fresh_topology)) = 395 /\
  count_occ NetworkLink_eq_dec (network_links fresh_topology) (camera_link first_camera) = 1 /\
  count_occ NetworkLink_eq_dec (network_links (generate_topology fresh_topology))
            (camera_link first_camera) = 3 /\
  network_links (generate_topology fresh_topology)
    <> (network_links fresh_topology ++ network_links fresh_topology)%list.
Proof.
  assert (H134 : length (network_links fresh_topology) = 134) by (vm_compute; reflexivity).
  assert (H395 : length (network_links (generate_topology fresh_topology)) = 395)
    by (vm_compute; reflexivity).
  repeat split; try assumption; try (vm_compute; reflexivity).
  intros E. apply (f_equal (@length _)) in E.
  rewrite length_app, H134, H395 in E. discriminate E.
Qed.

(** ** Failures *)


Lemma hd_last_In (l : list string) :
  2 <= length l -> In (List.hd "" l) l /\ In (List.last l "") l.
Proof.
  intros Hl. destruct l as [|x l]; [simpl in Hl; lia|]. split; [left; reflexivity|].
  destruct (@exists_last _ (x :: l) ltac:(discriminate)) as (l' & y & E).
  rewrite E, last_last. apply in_or_app. right. left. reflexivity.
Qed.

Section Failures.

Context `{RandomSource}.



End Failures.



(** ** Determinism *)

(** Every operation of a replayed source takes one raw draw. *)

Lemma replay_next_drop (g : list nat) : snd (Replay.next g) = skipn 1 g.
Proof. destruct g; reflexivity. Qed.









Section Determinism.

Context `{RandomSource}.






End Determinism.


(** * Further properties of the generator *)

(** ** Strings the code formats and splits *)

Lemma string_app_length (a b : string) :
  String.length (a +:+ b) = String.length a + String.length b.
Proof.
  induction a as [|c a IH]; [reflexivity|].
  change (S (String.length (a +:+ b)) = S (String.length a + String.length b)).
  rewrite IH. reflexivity.
Qed.

Lemma string_app_inj_l (s a b : string) : s +:+ a = s +:+ b -> a = b.
Proof.
  induction s as [|c s IH]; intros E; [exact E|].
  change (String c (s +:+ a) = String c (s +:+ b)) in E. injection E. exact IH.
Qed.

Lemma string_app_inj_r (s a b : string) : a +:+ s = b +:+ s -> a = b.
Proof.
  revert b. induction a as [|c a IH]; intros [|d b] E; simpl in E.
  - reflexivity.
  - apply (f_equal String.length) in E. rewrite !string_app_length in E. simpl in E. lia.
  - apply (f_equal String.length) in E. rewrite !string_app_length in E. simpl in E. lia.
  - change (String c (a +:+ s) = String d (b +:+ s)) in E.
    injection E as -> E. f_equal. apply IH, E.
Qed.

Lemma parse_index_zero (s : string) :
  parse_index (String "0"%char s) = parse_index s.
Proof.
  unfold parse_index. cbn [NilEmpty.uint_of_string uint_of_char].
  destruct (NilEmpty.uint_of_string s); reflexivity.
Qed.

Lemma parse_index_zero_pad (width : nat) (s : string) :
  parse_index (zero_pad width s) = parse_index s.
Proof.
  unfold zero_pad. induction (width - String.length s) as [|k IH].
  - reflexivity.
  - rewrite Nat.iter_succ, parse_index_zero. exact IH.
Qed.

Lemma parse_index_fmt_d (i : nat) : parse_index (fmt_d i) = Some i.
Proof.
  unfold parse_index, fmt_d. rewrite NilEmpty.usu. cbn [option_map].
  rewrite DecimalNat.Unsigned.of_to. reflexivity.
Qed.

Lemma parse_index_fmt_02d (i : nat) : parse_index (fmt_02d i) = Some i.
Proof.
  unfold fmt_02d. destruct (Nat.ltb i 10).
  - change ("0" +:+ fmt_d i) with (String "0"%char (fmt_d i)).
    rewrite parse_index_zero. apply parse_index_fmt_d.
  - apply parse_index_fmt_d.
Qed.

Lemma parse_index_fmt_04d (i : nat) : parse_index (fmt_04d i) = Some i.
Proof. unfold fmt_04d. rewrite parse_index_zero_pad. apply parse_index_fmt_d. Qed.

Lemma fmt_d_inj (i j : nat) : fmt_d i = fmt_d j -> i = j.
Proof.
  intros E. apply (f_equal parse_index) in E. rewrite !parse_index_fmt_d in E. congruence.
Qed.

Lemma fmt_02d_inj (i j : nat) : fmt_02d i = fmt_02d j -> i = j.
Proof.
  intros E. apply (f_equal parse_index) in E. rewrite !parse_index_fmt_02d in E. congruence.
Qed.

Lemma fmt_04d_inj (i j : nat) : fmt_04d i = fmt_04d j -> i = j.
Proof.
  intros E. apply (f_equal parse_index) in E. rewrite !parse_index_fmt_04d in E. congruence.
Qed.

(** X1. Reading the printed index back gives the index, for the plain
    form of [bg_{i}], the two-digit form of the camera ids and the
    four-digit form of the file names, and for every [i], also beyond
    the padded width; so each form prints different indices
    differently. *)
Theorem index_round_trip (i j : nat) :
  parse_index (fmt_d i) = Some i /\
  parse_index (fmt_02d i) = Some i /\
  parse_index (fmt_04d i) = Some i /\
  (fmt_d i = fmt_d j \/ fmt_02d i = fmt_02d j \/ fmt_04d i = fmt_04d j -> i = j).
Proof.
  split; [apply parse_index_fmt_d|]. split; [apply parse_index_fmt_02d|].
  split; [apply parse_index_fmt_04d|].
  intros [E | [E | E]]; [apply fmt_d_inj | apply fmt_02d_inj | apply fmt_04d_inj]; exact E.
Qed.

Lemma split_head_app (terminal rest : string) :
  no_slash terminal = true -> split_head (terminal +:+ "/" +:+ rest) = terminal.
Proof.
  induction terminal as [|c t IH]; simpl; intros Hs.
  - reflexivity.
  - apply andb_true_iff in Hs as [Hc Ht]. apply negb_true_iff in Hc. rewrite Hc.
    f_equal. apply IH, Ht.
Qed.

Lemma split_head_no_slash (s : string) : no_slash s = true -> split_head s = s.
Proof.
  induction s as [|c t IH]; simpl; intros Hs.
  - reflexivity.
  - apply andb_true_iff in Hs as [Hc Ht]. apply negb_true_iff in Hc. rewrite Hc.
    f_equal. apply IH, Ht.
Qed.

Lemma split_head_is_no_slash (s : string) : no_slash (split_head s) = true.
Proof.
  induction s as [|c t IH]; simpl.
  - reflexivity.
  - destruct (Ascii.eqb c "/") eqn:E; simpl; [reflexivity | rewrite E, IH; reflexivity].
Qed.

(** X2. For a terminal name without a slash, the terminal read back from
    the location of a camera is the terminal the camera was created
    for, whatever the area is, slashes included; the link of the camera
    then goes to the edge that [camera_to_edge_map] gives for that
    terminal, is wireless exactly for "Perimeter", and starts at the
    camera. *)
Theorem camera_link_follows_terminal (terminal area : string) (zone : PolicyZone) (i : nat) :
  no_slash terminal = true ->
  let cam := terminal_camera terminal area zone i in
  split_head (Camera.location cam) = terminal /\
  NetworkLink.src (camera_link cam) = Camera.id cam /\
  NetworkLink.dst (camera_link cam) = dict_get camera_to_edge_map terminal "edge_termA" /\
  NetworkLink.stochastic (camera_link cam) = String.eqb terminal "Perimeter" /\
  NetworkLink.link_type (camera_link cam)
    = (if String.eqb terminal "Perimeter" then "wireless" else "wired").
Proof.
  intros Hs. cbv zeta.
  assert (Hloc : split_head (Camera.location (terminal_camera terminal area zone i)) = terminal).
  { unfold terminal_camera. destruct zone; cbn [Camera.location]; apply split_head_app, Hs. }
  split; [exact Hloc|].
  unfold camera_link. cbv zeta. rewrite Hloc.
  cbn [NetworkLink.src NetworkLink.dst NetworkLink.stochastic NetworkLink.link_type].
  repeat split. destruct (String.eqb terminal "Perimeter"); reflexivity.
Qed.

Lemma camera_link_follows_terminal_witness :
  no_slash "Perimeter" = true /\
  NetworkLink.dst (camera_link (terminal_camera "Perimeter" "Fence/North" PZ1_CRITICAL_SECURITY 3))
  = "edge_perimeter".
Proof.
  split; [reflexivity|].
  destruct (camera_link_follows_terminal "Perimeter" "Fence/North" PZ1_CRITICAL_SECURITY 3
              eq_refl) as (_ & _ & Hd & _).
  rewrite Hd. reflexivity.
Defined.

(** X3. A camera whose terminal is none of the seven names of
    [camera_to_edge_map] is linked to the default edge [edge_termA] by a
    wired link that is not stochastic, and its flow under "all_edge"
    goes to [edge_termA]; nothing is raised. *)
Theorem unknown_terminal_falls_back `{RandomSource} (cam : Camera.t) (self : ScenarioGenerator)
    (g : rng) :
  ~ In (split_head (Camera.location cam)) (map fst camera_to_edge_map) ->
  NetworkLink.dst (camera_link cam) = "edge_termA" /\
  NetworkLink.link_type (camera_link cam) = "wired" /\
  NetworkLink.stochastic (camera_link cam) = false /\
  NetworkLink.capacity_mbps (camera_link cam) = PyFloat (F64.of_Z 1000) /\
  VideoFlow.destination (fst (camera_flow "all_edge" self cam g)) = "edge_termA".
Proof.
  intros Hn. rewrite camera_flow_run. cbv zeta.
  unfold camera_link, choose_destination. cbv zeta.
  cbn [String.eqb Ascii.eqb Bool.eqb ret fst VideoFlow.destination].
  set (t := split_head (Camera.location cam)) in *.
  assert (Hget : dict_get camera_to_edge_map t "edge_termA" = "edge_termA").
  { unfold camera_to_edge_map in *. cbn [dict_get map fst In] in *.
    repeat match goal with
           | |- context [String.eqb ?a t] =>
               destruct (String.eqb_spec a t); [exfalso; tauto|]
           end.
    reflexivity. }
  assert (Hp : String.eqb t "Perimeter" = false).
  { apply String.eqb_neq. intros E. apply Hn. rewrite E. simpl. tauto. }
  rewrite Hget, Hp.
  cbn [negb NetworkLink.dst NetworkLink.link_type NetworkLink.stochastic
       NetworkLink.capacity_mbps].
  repeat split.
Qed.

Lemma unknown_terminal_falls_back_witness :
  ~ In (split_head "Hangar/Door") (map fst camera_to_edge_map) /\
  NetworkLink.dst
    (camera_link (terminal_camera "Hangar" "Door" PZ3_PUBLIC_AREA 0)) = "edge_termA".
Proof.
  assert (Hn : ~ In (split_head (Camera.location
                       (terminal_camera "Hangar" "Door" PZ3_PUBLIC_AREA 0)))
                    (map fst camera_to_edge_map)).
  { simpl. intros H. repeat (destruct H as [H | H]; [discriminate H|]). exact H. }
  split; [exact Hn|].
  exact (proj1 (@unknown_terminal_falls_back zero_source
                  (terminal_camera "Hangar" "Door" PZ3_PUBLIC_AREA 0)
                  empty_generator (@seed zero_source 0) Hn)).
Defined.

(** ** Cameras and links of the topology *)

Lemma terminal_camera_id_inj (terminal area : string) (zone : PolicyZone) (i j : nat) :
  Camera.id (terminal_camera terminal area zone i)
  = Camera.id (terminal_camera terminal area zone j) -> i = j.
Proof.
  unfold terminal_camera. destruct zone; cbn [Camera.id]; intros E;
    repeat apply string_app_inj_l in E; apply fmt_02d_inj, E.
Qed.

Lemma terminal_camera_by_zone (terminal area : string) (zone : PolicyZone) (i : nat) :
  camera_by_zone (terminal_camera terminal area zone i) /\
  Camera.zone (terminal_camera terminal area zone i) = zone /\
  Camera.location (terminal_camera terminal area zone i) = terminal +:+ "/" +:+ area.
Proof.
  unfold camera_by_zone, terminal_camera. destruct zone; cbn; repeat split;
    vm_compute; reflexivity.
Qed.

(** X4. [_add_terminal_cameras] keeps the cameras the generator has and
    puts [count] new ones behind them, for any count: none for 0, and
    beyond 99 the index takes three digits.  The new cameras have the
    given zone and the location terminal/area, their priority,
    resolution, frame rate and bitrate are those of the zone, and their
    ids differ from one another.  No other list of the generator
    changes. *)
Theorem add_terminal_cameras_batch (terminal area : string) (zone : PolicyZone) (count : nat)
    (self : ScenarioGenerator) :
  let self' := _add_terminal_cameras terminal area zone count self in
  let added := map (terminal_camera terminal area zone) (seq 0 count) in
  cameras self' = (cameras self ++ added)%list /\
  length added = count /\
  List.NoDup (map Camera.id added) /\
  Forall (fun c => camera_by_zone c /\ Camera.zone c = zone /\
                   Camera.location c = terminal +:+ "/" +:+ area) added /\
  self' = set_cameras (cameras self') self.
Proof.
  cbv zeta. rewrite add_terminal_cameras_spec. cbn [cameras set_cameras].
  split; [reflexivity|]. split; [rewrite length_map; apply length_seq|].
  split; [|split; [|reflexivity]].
  - rewrite map_map. apply Finite.Injective_map_NoDup; [|apply List.seq_NoDup].
    intros i j. apply terminal_camera_id_inj.
  - apply List.Forall_forall. intros c Hc. apply in_map_iff in Hc as (i & <- & _).
    apply terminal_camera_by_zone.
Qed.

Lemma topology_cameras_batches :
  topology_cameras =
  flat_map (fun '(terminal, area, zone, count) =>
              map (terminal_camera terminal area zone) (seq 0 count)) camera_batches.
Proof. vm_compute. reflexivity. Qed.

Lemma topology_cameras_by_zone : Forall camera_by_zone topology_cameras.
Proof.
  rewrite topology_cameras_batches. apply List.Forall_forall. intros c Hc.
  apply in_flat_map in Hc as ([[[terminal area] zone] count] & _ & Hc).
  apply in_map_iff in Hc as (i & <- & _). apply terminal_camera_by_zone.
Qed.

Lemma topology_cameras_terminals :
  Forall (fun c => In (split_head (Camera.location c)) (map fst camera_to_edge_map))
         topology_cameras.
Proof.
  rewrite topology_cameras_batches. apply List.Forall_forall. intros c Hc.
  apply in_flat_map in Hc as ([[[terminal area] zone] count] & Hb & Hc).
  apply in_map_iff in Hc as (i & <- & _).
  assert (Hs : no_slash terminal = true /\ In terminal (map fst camera_to_edge_map)).
  { simpl in Hb.
    repeat (destruct Hb as [Hb | Hb];
            [injection Hb as <- <- <- <-; split; [reflexivity | simpl; tauto]|]).
    destruct Hb. }
  destruct Hs as [Hs Hin].
  destruct (terminal_camera_by_zone terminal area zone i) as (_ & _ & ->).
  rewrite split_head_app by exact Hs. exact Hin.
Qed.

(** X5. Each [generate_topology] adds 127 cameras and, for the links, 5
    edge links, 2 WAN links and one link for every camera the generator
    then has.  After [k] calls on a new generator there are 127 k
    cameras and 7 k + 127 k (k + 1) / 2 links. *)
Theorem topology_growth (self : ScenarioGenerator) (k : nat) :
  length (cameras (generate_topology self)) = length (cameras self) + 127 /\
  length (network_links (generate_topology self))
    = length (network_links self) + 7 + length (cameras (generate_topology self)) /\
  length (cameras (Nat.iter k generate_topology empty_generator)) = 127 * k /\
  2 * length (network_links (Nat.iter k generate_topology empty_generator))
    = 14 * k + 127 * k * (k + 1).
Proof.
  assert (Hstep : forall s,
    length (cameras (generate_topology s)) = length (cameras s) + 127 /\
    length (network_links (generate_topology s))
      = length (network_links s) + 7 + length (cameras (generate_topology s))).
  { intros s. rewrite generate_topology_spec. cbn [cameras network_links].
    rewrite !length_app, !length_map, !length_app.
    change (length topology_cameras) with 127.
    change (length (flat_map edge_link topology_edge_servers)) with 5.
    change (length wan_links) with 2. lia. }
  split; [apply Hstep|]. split; [apply Hstep|].
  induction k as [|k [IHc IHl]].
  - split; reflexivity.
  - rewrite Nat.iter_succ.
    destruct (Hstep (Nat.iter k generate_topology empty_generator)) as [Hc Hl].
    rewrite Hl, Hc, IHc. split; [lia|]. nia.
Qed.

(** ** What every reachable generator satisfies *)

Section Consistency.

Context `{RandomSource}.

Lemma for_each_Forall_In {A B : Type} (Q : B -> Prop) (body : A -> Rand B) (l : list A)
    (g : rng) :
  (forall a g0, In a l -> Q (fst (body a g0))) -> Forall Q (fst (for_each body l g)).
Proof.
  revert g. induction l as [|a l IH]; intros g HQ; simpl.
  - constructor.
  - rewrite !bind_run, ret_run. cbn [fst]. constructor.
    + apply HQ. left. reflexivity.
    + apply IH. intros b g0 Hb. apply HQ. right. exact Hb.
Qed.

(** The four outcomes of [generate_failures], on any generator. *)
Lemma generate_failures_cases (self : ScenarioGenerator) (g : rng) :
  let fs := failures (fst (generate_failures self g)) in
  let candidates := non_gateway_ids (edge_servers self) in
  fs = [] \/
  (exists edge start,
     fs = [FailureEvent.mk edge "shutdown" start 120 (F64.dec 10 1)] /\
     In edge candidates /\ (100 <= start <= 400)%Z) \/
  (exists start,
     fs = [FailureEvent.mk "core_gateway_cloud_primary" "link_degradation" start 200
             (F64.dec 2 1)] /\
     (50 <= start <= 300)%Z) \/
  (fs = [FailureEvent.mk (List.hd "" candidates) "shutdown" 100 60 (F64.dec 10 1);
         FailureEvent.mk (List.last candidates "") "shutdown" 120 60 (F64.dec 10 1)] /\
   2 <= length candidates).
Proof.
  cbv zeta. unfold generate_failures. cbv zeta. rewrite bind_run.
  change (edge_servers (set_failures [] self)) with (edge_servers self).
  destruct (F64.ltb (F64.dec 85 2) (fst (random g))).
  - destruct (non_gateway_ids (edge_servers self)) as [|t ts] eqn:Et; [left; reflexivity|].
    right. left. rewrite !bind_run, ret_run. do 2 eexists.
    split; [reflexivity|]. split; [apply choice_In; discriminate | apply randint_range; lia].
  - destruct (F64.ltb (F64.dec 70 2) (fst (random g))).
    + right. right. left. rewrite !bind_run, ret_run. eexists.
      split; [reflexivity | apply randint_range; lia].
    + destruct (F64.ltb (F64.dec 65 2) (fst (random g))); [|left; reflexivity].
      destruct (Nat.leb 2 (length (non_gateway_ids (edge_servers self)))) eqn:El;
        [|left; reflexivity].
      right. right. right. split; [reflexivity|]. apply Nat.leb_le, El.
Qed.

Lemma generate_failures_refs (self : ScenarioGenerator) (g : rng) :
  Forall (failure_refs self) (failures (fst (generate_failures self g))).
Proof.
  destruct (generate_failures_cases self g)
    as [-> | [(e & s & -> & He & _) | [(s & -> & _) | [-> Hl]]]].
  - constructor.
  - constructor; [left; split; [reflexivity | exact He] | constructor].
  - constructor; [right; split; reflexivity | constructor].
  - destruct (hd_last_In _ Hl) as [H1 H2].
    constructor; [left; split; [reflexivity | exact H1]|].
    constructor; [left; split; [reflexivity | exact H2] | constructor].
Qed.

Lemma background_flow_fields (i : nat) (g : rng) :
  let b := fst (background_flow i g) in
  BackgroundTraffic.id b = "bg_" +:+ fmt_d i /\
  In (BackgroundTraffic.src b) terminals /\
  BackgroundTraffic.dst b = "cloud_primary" /\
  (0 <= BackgroundTraffic.start_time_s b <= 600)%Z /\
  (30 <= BackgroundTraffic.duration_s b <= 300)%Z /\
  F64.leb (F64.of_Z 5) (BackgroundTraffic.bitrate_mbps b) = true /\
  F64.leb (BackgroundTraffic.bitrate_mbps b) (F64.of_Z 20) = true /\
  BackgroundTraffic.flow_type b = "TCP".
Proof.
  cbv zeta. unfold background_flow. rewrite !bind_run, ret_run.
  cbn [fst BackgroundTraffic.id BackgroundTraffic.src BackgroundTraffic.dst
       BackgroundTraffic.start_time_s BackgroundTraffic.duration_s
       BackgroundTraffic.bitrate_mbps BackgroundTraffic.flow_type].
  split; [reflexivity|]. split; [apply choice_In; discriminate|].
  split; [reflexivity|]. split; [apply randint_range; lia|].
  split; [apply randint_range; lia|].
  assert (Hr : F64.leb (F64.dec 50 1) (F64.dec 200 1) = true) by (vm_compute; reflexivity).
  match goal with
  | |- context [uniform _ _ ?g0] =>
      destruct (uniform_range (F64.dec 50 1) (F64.dec 200 1) g0 Hr) as [Hlo Hhi]
  end.
  split; [exact Hlo|]. split; [exact Hhi | reflexivity].
Qed.

Lemma local_edge_non_gateway (terminal : string) :
  In (dict_get camera_to_edge_map terminal "edge_termA")
     (non_gateway_ids topology_edge_servers).
Proof.
  unfold camera_to_edge_map. cbn [dict_get].
  repeat match goal with |- context [String.eqb ?a ?b] => destruct (String.eqb a b) end;
    simpl; tauto.
Qed.

Lemma choose_destination_in (placement_strategy : string) (self : ScenarioGenerator)
    (cam : Camera.t) (g : rng) :
  edge_servers self = topology_edge_servers ->
  In (fst (choose_destination placement_strategy self cam g))
     (non_gateway_ids topology_edge_servers ++ ["cloud_primary"]).
Proof.
  intros He. unfold choose_destination. cbv zeta. rewrite He.
  destruct (String.eqb placement_strategy "all_edge");
    [apply in_or_app; left; apply local_edge_non_gateway|].
  destruct (String.eqb placement_strategy "all_cloud");
    [apply in_or_app; right; left; reflexivity|].
  destruct (String.eqb placement_strategy "critical_edge").
  - cbn [ret fst]. case_decide;
      [apply in_or_app; left; apply local_edge_non_gateway
      | apply in_or_app; right; left; reflexivity].
  - apply choice_In. intros E. apply app_eq_nil in E as [_ E]. discriminate E.
Qed.

Lemma camera_flow_refs (placement_strategy : string) (self : ScenarioGenerator)
    (cam : Camera.t) (g : rng) :
  edge_servers self = topology_edge_servers ->
  cloud_endpoints self = topology_cloud_endpoints ->
  In cam (cameras self) ->
  flow_refs self (fst (camera_flow placement_strategy self cam g)).
Proof.
  intros He Hc Hcam. rewrite camera_flow_run. cbv zeta. unfold flow_refs, known_ids.
  cbn [VideoFlow.source VideoFlow.destination VideoFlow.backup_destination].
  rewrite He, Hc. split; [apply in_map, Hcam|].
  pose proof (choose_destination_in placement_strategy self cam g He) as Hd.
  split.
  - apply in_or_app. right. simpl in Hd |- *. tauto.
  - apply in_or_app. right.
    destruct (negb (String.eqb (fst (choose_destination placement_strategy self cam g))
                               "cloud_primary")); simpl; tauto.
Qed.

Lemma star_link_weather (weather_condition : string) (self : ScenarioGenerator)
    (l : NetworkLink.t) :
  star_link self l -> star_link self (weather_link weather_condition l).
Proof.
  destruct (weather_link_frame weather_condition l) as (Es & Ed & Est & Ety).
  unfold star_link. rewrite Es, Ed, Est, Ety. tauto.
Qed.

Lemma star_link_grow (self self' : ScenarioGenerator) (l : NetworkLink.t) :
  (forall cam, In cam (cameras self) -> In cam (cameras self')) ->
  star_link self l -> star_link self' l.
Proof.
  intros Hc [He | [Hw | ((cam & Hin & Hs & Hd) & Hrest)]].
  - left. exact He.
  - right. left. exact Hw.
  - right. right. split; [|exact Hrest]. exists cam. split; [apply Hc, Hin|].
    split; assumption.
Qed.

Lemma camera_link_star (self : ScenarioGenerator) (cam : Camera.t) :
  In cam (cameras self) -> star_link self (camera_link cam).
Proof.
  intros Hin. right. right. split; [|split].
  - exists cam. split; [exact Hin|]. split; reflexivity.
  - unfold camera_link. cbv zeta. cbn [NetworkLink.dst]. apply local_edge_non_gateway.
  - destruct (camera_link_cases cam) as [[edge ->] | ->]; [left | right]; repeat split.
Qed.

Lemma topology_links_star (self : ScenarioGenerator) :
  Forall (star_link self) (flat_map edge_link topology_edge_servers ++ wan_links).
Proof.
  apply List.Forall_forall. intros l Hin. simpl in Hin.
  repeat (destruct Hin as [<- | Hin];
          [first [left; repeat split; simpl; tauto
                 | right; left; repeat split; simpl; tauto]|]).
  destruct Hin.
Qed.

Lemma flow_refs_grow (self self' : ScenarioGenerator) (f : VideoFlow.t) :
  (forall x, In x (map Camera.id (cameras self)) -> In x (map Camera.id (cameras self'))) ->
  edge_servers self' = edge_servers self ->
  cloud_endpoints self' = cloud_endpoints self ->
  flow_refs self f -> flow_refs self' f.
Proof.
  intros Hc He Hcl (Hs & Hd & Hb). unfold flow_refs, known_ids in *.
  rewrite He, Hcl. rewrite !in_app_iff in Hd, Hb. rewrite !in_app_iff.
  split; [apply Hc, Hs|]. split.
  - destruct Hd as [Hd | Hd]; [left; apply Hc, Hd | right; exact Hd].
  - destruct Hb as [Hb | Hb]; [left; apply Hc, Hb | right; exact Hb].
Qed.

Lemma generate_topology_consistent (self : ScenarioGenerator) :
  consistent self -> consistent (generate_topology self).
Proof.
  intros (Hst & Hcam & Hlinks & Hflows & Hfail & Hbg).
  rewrite generate_topology_spec. unfold consistent.
  cbn [cameras edge_servers cloud_endpoints network_links flows failures
       background_traffic].
  split; [right; split; reflexivity|].
  split; [apply Forall_app; split; [exact Hcam | apply topology_cameras_by_zone]|].
  split.
  { rewrite app_assoc. rewrite !Forall_app. split; [split|split].
    - eapply Forall_impl; [exact Hlinks|]. intros l. apply star_link_grow.
      intros cam Hin. cbn [cameras]. apply in_or_app. left. exact Hin.
    - apply (proj1 (Forall_app _ _ _) (topology_links_star _)).
    - apply (proj2 (proj1 (Forall_app _ _ _) (topology_links_star _))).
    - apply List.Forall_forall. intros l Hl. apply in_map_iff in Hl as (c & <- & Hc).
      apply camera_link_star. exact Hc. }
  split.
  { eapply Forall_impl; [exact Hflows|]. intros f Hf.
    destruct Hst as [(_ & _ & Hc0 & _) | (He & Hc)].
    - destruct Hf as (Hs & _). rewrite Hc0 in Hs. destruct Hs.
    - eapply flow_refs_grow; [| | |exact Hf]; cbn [cameras edge_servers cloud_endpoints].
      + intros x Hx. rewrite map_app. apply in_or_app. left. exact Hx.
      + symmetry. exact He.
      + symmetry. exact Hc. }
  split; [|exact Hbg].
  eapply Forall_impl; [exact Hfail|]. intros f [[Ht Hin] | Hd]; [|right; exact Hd].
  left. split; [exact Ht|]. unfold failure_refs. cbn [edge_servers].
  destruct Hst as [(He & _) | (He & _)]; rewrite He in Hin; [destruct Hin | exact Hin].
Qed.

Lemma run_call_consistent (c : call) (self : ScenarioGenerator) (g : rng) :
  consistent self -> consistent (fst (run_call c self g)).
Proof.
  intros Hc. destruct c as [|w|t|p|n|]; cbn [run_call ret fst].
  - apply generate_topology_consistent, Hc.
  - destruct Hc as (Hst & Hcam & Hlinks & Hrest). unfold apply_weather_physics.
    destruct (String.eqb w "clear");
      [exact (conj Hst (conj Hcam (conj Hlinks Hrest)))|].
    unfold consistent.
    cbn [cameras edge_servers cloud_endpoints network_links flows failures
         background_traffic set_network_links].
    split; [|split; [exact Hcam|split; [|exact Hrest]]].
    + destruct Hst as [(He & Hcl & Hc0 & Hl) | Hb]; [left | right; exact Hb].
      rewrite Hl. repeat split; assumption.
    + apply List.Forall_forall. intros l' Hl'. apply in_map_iff in Hl' as (l & <- & Hl).
      apply star_link_weather. rewrite List.Forall_forall in Hlinks.
      apply (star_link_grow self); [intros cam Hin; exact Hin | apply Hlinks, Hl].
  - rewrite generate_intents_frame. exact Hc.
  - rewrite generate_flows_spec. cbn [fst].
    destruct Hc as (Hst & Hcam & Hlinks & Hflows & Hrest). unfold consistent.
    cbn [cameras edge_servers cloud_endpoints network_links flows failures
         background_traffic set_flows].
    split; [exact Hst|]. split; [exact Hcam|]. split; [exact Hlinks|].
    split; [|exact Hrest].
    apply for_each_Forall_In. intros cam g0 Hcam0.
    destruct Hst as [(_ & _ & Hc0 & _) | (He & Hcl)].
    + rewrite Hc0 in Hcam0. destruct Hcam0.
    + apply (camera_flow_refs p self cam g0 He Hcl Hcam0).
  - rewrite generate_background_traffic_spec. cbn [fst].
    destruct Hc as (Hst & Hcam & Hlinks & Hflows & Hfail & Hbg). unfold consistent.
    cbn [cameras edge_servers cloud_endpoints network_links flows failures
         background_traffic set_background_traffic].
    repeat split; try assumption.
    apply for_each_Forall_In. intros i g0 _.
    destruct (background_flow_fields i g0) as (_ & Hs & Hd & _). split; assumption.
  - pose proof (generate_failures_refs self g) as Hnew.
    rewrite generate_failures_frame.
    destruct Hc as (Hst & Hcam & Hlinks & Hflows & Hfail & Hbg). unfold consistent.
    cbn [cameras edge_servers cloud_endpoints network_links flows failures
         background_traffic set_failures].
    repeat split; try assumption.
Qed.

Lemma empty_generator_consistent : consistent empty_generator.
Proof.
  unfold consistent. cbn. split; [left; repeat split|]. repeat split; constructor.
Qed.

Lemma pipeline_consistent (a : Z) (cs : list call) : consistent (pipeline a cs).
Proof.
  unfold pipeline, run_calls. apply (for_loop_invariant consistent).
  - intros c s g. apply run_call_consistent.
  - apply empty_generator_consistent.
Qed.

(** X6. In every generator that calls have brought about, every camera
    has the priority, the resolution, the frame rate and the bitrate
    that its zone fixes. *)
Theorem cameras_follow_zone (a : Z) (cs : list call) :
  Forall camera_by_zone (cameras (pipeline a cs)).
Proof. apply pipeline_consistent. Qed.

Lemma topology_camera_ids :
  Forall (fun c => ~ In (Camera.id c) infrastructure_ids) topology_cameras.
Proof.
  assert (Hb : forallb (fun c => negb (existsb (String.eqb (Camera.id c)) infrastructure_ids))
                       topology_cameras = true) by (vm_compute; reflexivity).
  apply List.Forall_forall. intros c Hc Hin.
  rewrite forallb_forall in Hb. specialize (Hb c Hc). apply negb_true_iff in Hb.
  assert (Ht : existsb (String.eqb (Camera.id c)) infrastructure_ids = true).
  { apply existsb_exists. exists (Camera.id c). split; [exact Hin | apply String.eqb_refl]. }
  congruence.
Qed.

Lemma run_call_cameras (c : call) (self : ScenarioGenerator) (g : rng) :
  cameras (fst (run_call c self g)) = cameras self \/
  cameras (fst (run_call c self g)) = (cameras self ++ topology_cameras)%list.
Proof.
  destruct c as [|w|t|p|n|]; cbn [run_call ret fst].
  - right. rewrite generate_topology_spec. reflexivity.
  - left. unfold apply_weather_physics. destruct (String.eqb w "clear"); reflexivity.
  - left. rewrite generate_intents_frame. reflexivity.
  - left. rewrite generate_flows_spec. reflexivity.
  - left. rewrite generate_background_traffic_spec. reflexivity.
  - left. rewrite generate_failures_frame. reflexivity.
Qed.

Lemma pipeline_cameras (a : Z) (cs : list call) :
  Forall (fun c => In c topology_cameras) (cameras (pipeline a cs)).
Proof.
  unfold pipeline, run_calls.
  apply (for_loop_invariant
           (fun s => Forall (fun c => In c topology_cameras) (cameras s))).
  - intros c s g Hs. destruct (run_call_cameras c s g) as [-> | ->]; [exact Hs|].
    apply Forall_app. split; [exact Hs|]. apply List.Forall_forall. intros x Hx. exact Hx.
  - constructor.
Qed.

(** X7. In every generator that calls have brought about, whatever the
    weather applied and however often the topology was generated, a link
    has one of three shapes: from an edge other than the gateway to the
    gateway, wired and stable; from the gateway to a cloud endpoint, WAN
    and stochastic; or from a camera that the generator holds to the
    edge that [camera_to_edge_map] gives for the camera's terminal, an
    edge other than the gateway, wired and stable or, into
    [edge_perimeter], wireless and stochastic.  No id of a camera of the
    generator is the id of an edge server or of a cloud endpoint, so the
    source tells the three shapes apart: no link ends at a camera, none
    joins two edges other than through the gateway, and none joins a
    camera or an edge to the cloud directly. *)
Theorem links_form_a_star (a : Z) (cs : list call) :
  let self := pipeline a cs in
  Forall (star_link self) (network_links self) /\
  Forall (fun c => ~ In (Camera.id c) infrastructure_ids) (cameras self).
Proof.
  cbv zeta. split; [apply pipeline_consistent|].
  eapply Forall_impl; [apply pipeline_cameras|]. intros c Hc.
  pose proof topology_camera_ids as Hall. rewrite List.Forall_forall in Hall.
  apply Hall, Hc.
Qed.

(** X8. In every generator that calls have brought about, the source of
    every flow is the id of a camera of the generator, and its
    destination and its backup destination are ids of entities of the
    generator. *)
Theorem flows_reference_entities (a : Z) (cs : list call) :
  Forall (flow_refs (pipeline a cs)) (flows (pipeline a cs)).
Proof. apply pipeline_consistent. Qed.

(** X9. In every generator that calls have brought about, a failure
    event is a shutdown of an edge server that the generator has and
    that is not the core gateway, or a degradation of
    [core_gateway_cloud_primary]. *)
Theorem failures_reference_edges (a : Z) (cs : list call) :
  let self := pipeline a cs in
  Forall
    (fun f =>
       (FailureEvent.failure_type f = "shutdown" /\
        In (FailureEvent.target f) (map EdgeServer.id (edge_servers self)) /\
        FailureEvent.target f <> "core_gateway") \/
       (FailureEvent.failure_type f = "link_degradation" /\
        FailureEvent.target f = "core_gateway_cloud_primary"))
    (failures self).
Proof.
  cbv zeta. destruct (pipeline_consistent a cs) as (_ & _ & _ & _ & Hf & _).
  eapply Forall_impl; [exact Hf|]. intros f [[Ht Hin] | Hd]; [left | right; exact Hd].
  split; [exact Ht|]. split; [|apply (non_gateway_ids_spec _ _ Hin)].
  unfold non_gateway_ids in Hin. apply in_map_iff in Hin as (e & <- & He).
  apply filter_In in He as [He _]. apply in_map, He.
Qed.

(** X10. Once [generate_topology] has run, whatever was called before and
    after, the source of every background flow is the id of an edge
    server of the generator and its destination the id of a cloud
    endpoint. *)
Theorem background_references_entities (a : Z) (before after : list call) :
  let self := pipeline a (before ++ GenerateTopology :: after) in
  Forall (background_refs self) (background_traffic self).
Proof.
  cbv zeta.
  set (P := fun s => consistent s /\ edge_servers s = topology_edge_servers /\
                     cloud_endpoints s = topology_cloud_endpoints).
  assert (HP : P (pipeline a (before ++ GenerateTopology :: after))).
  { unfold pipeline, run_calls. rewrite for_loop_app. cbn [for_loop].
    rewrite bind_run. cbn [run_call ret fst snd].
    apply (for_loop_invariant P).
    - intros c s g (Hc & He & Hcl). split; [apply run_call_consistent, Hc|].
      destruct c as [|w|t|p|n|]; cbn [run_call ret fst].
      + rewrite generate_topology_spec. split; reflexivity.
      + unfold apply_weather_physics. destruct (String.eqb w "clear"); split; assumption.
      + rewrite generate_intents_frame. split; assumption.
      + rewrite generate_flows_spec. split; assumption.
      + rewrite generate_background_traffic_spec. split; assumption.
      + rewrite generate_failures_frame. split; assumption.
    - split; [|rewrite generate_topology_spec; split; reflexivity].
      apply generate_topology_consistent.
      apply (for_loop_invariant consistent).
      + intros c s g. apply run_call_consistent.
      + apply empty_generator_consistent. }
  destruct HP as ((_ & _ & _ & _ & _ & Hbg) & He & Hcl).
  eapply Forall_impl; [exact Hbg|]. intros b [Hs Hd]. unfold background_refs.
  rewrite He, Hcl, Hd. split; [|left; reflexivity].
  simpl in Hs |- *. tauto.
Qed.

End Consistency.

(** ** Background traffic and failures on any generator *)

Section Noise.

Context `{RandomSource}.

(** X11. For any number asked for and any generator, the background
    flows are named [bg_0], [bg_1], ... in order, with names that differ
    from one another; each starts at one of the three terminal edges,
    ends at [cloud_primary], starts between 0 and 600, lasts between 30
    and 300, has a bitrate between 5.0 and 20.0 and the type "TCP".  The
    topology is not consulted, a number below 1 gives no flow, and the
    generator is otherwise unchanged. *)
Theorem background_traffic_fields (num_flows : Z) (self : ScenarioGenerator) (g : rng) :
  let self' := fst (generate_background_traffic num_flows self g) in
  map BackgroundTraffic.id (background_traffic self')
    = map (fun i => "bg_" +:+ fmt_d i) (seq 0 (Z.to_nat num_flows)) /\
  List.NoDup (map BackgroundTraffic.id (background_traffic self')) /\
  Forall
    (fun b =>
       In (BackgroundTraffic.src b) ["edge_termA"; "edge_termB"; "edge_termC"] /\
       BackgroundTraffic.dst b = "cloud_primary" /\
       (0 <= BackgroundTraffic.start_time_s b <= 600)%Z /\
       (30 <= BackgroundTraffic.duration_s b <= 300)%Z /\
       F64.leb (F64.of_Z 5) (BackgroundTraffic.bitrate_mbps b) = true /\
       F64.leb (BackgroundTraffic.bitrate_mbps b) (F64.of_Z 20) = true /\
       BackgroundTraffic.flow_type b = "TCP")
    (background_traffic self') /\
  ((num_flows <= 0)%Z -> background_traffic self' = []) /\
  background_traffic self'
    = background_traffic (fst (generate_background_traffic num_flows empty_generator g)) /\
  self' = set_background_traffic (background_traffic self') self.
Proof.
  cbv zeta. rewrite !generate_background_traffic_spec.
  cbn [fst background_traffic set_background_traffic].
  assert (Hids : map BackgroundTraffic.id
                   (fst (for_each background_flow (seq 0 (Z.to_nat num_flows)) g))
                 = map (fun i => "bg_" +:+ fmt_d i) (seq 0 (Z.to_nat num_flows))).
  { apply for_each_map. intros i g0. apply background_flow_fields. }
  split; [exact Hids|]. split; [|split; [|split; [|split; reflexivity]]].
  - rewrite Hids. apply Finite.Injective_map_NoDup; [|apply List.seq_NoDup].
    intros i j E. apply string_app_inj_l in E. apply fmt_d_inj, E.
  - apply for_each_Forall. intros i g0.
    destruct (background_flow_fields i g0) as (_ & Hfields). exact Hfields.
  - intros Hn. replace (Z.to_nat num_flows) with 0 by lia. reflexivity.
Qed.

(** X12. On any generator [generate_failures] leaves at most two events.
    Every event starts between 50 and 400 and is over by 520; a shutdown
    has severity 1.0 and names a non-gateway edge server of the
    generator, a degradation has severity 0.2.  A generator with no
    edge server other than the gateway gets no shutdown at all, and one
    with fewer than two gets at most one event. *)
Theorem failure_events_bounded (self : ScenarioGenerator) (g : rng) :
  let fs := failures (fst (generate_failures self g)) in
  let candidates := non_gateway_ids (edge_servers self) in
  length fs <= 2 /\
  Forall
    (fun f =>
       (50 <= FailureEvent.start_time_s f <= 400)%Z /\
       (FailureEvent.start_time_s f + FailureEvent.duration_s f <= 520)%Z /\
       ((FailureEvent.failure_type f = "shutdown" /\
         FailureEvent.severity f = F64.of_Z 1 /\
         In (FailureEvent.target f) candidates) \/
        (FailureEvent.failure_type f = "link_degradation" /\
         FailureEvent.severity f = F64.dec 2 1 /\
         FailureEvent.target f = "core_gateway_cloud_primary")))
    fs /\
  (candidates = [] -> Forall (fun f => FailureEvent.failure_type f = "link_degradation") fs) /\
  (length candidates < 2 -> length fs <= 1).
Proof.
  cbv zeta.
  destruct (generate_failures_cases self g)
    as [-> | [(e & s & -> & He & Hs) | [(s & -> & Hs) | [-> Hl]]]].
  - repeat split; try constructor; simpl; lia.
  - split; [simpl; lia|]. split; [|split; [|simpl; lia]].
    + constructor; [|constructor]. cbn. split; [lia|]. split; [lia|].
      left. repeat split; try exact He; vm_compute; reflexivity.
    + intros E. rewrite E in He. destruct He.
  - split; [simpl; lia|]. split; [|split; [|simpl; lia]].
    + constructor; [|constructor]. cbn. split; [lia|]. split; [lia|].
      right. repeat split; vm_compute; reflexivity.
    + intros _. constructor; [reflexivity | constructor].
  - destruct (hd_last_In _ Hl) as [H1 H2].
    split; [simpl; lia|]. split; [|split; [|lia]].
    + constructor; [|constructor; [|constructor]]; cbn; (split; [lia|]); (split; [lia|]);
        left; repeat split; try assumption; vm_compute; reflexivity.
    + intros E. rewrite E in Hl. simpl in Hl. lia.
Qed.

End Noise.

(** ** Weather on any generator *)

Lemma weather_link_unknown (weather_condition : string) (l : NetworkLink.t) :
  weather_condition <> "rain" -> weather_condition <> "storm" ->
  weather_link weather_condition l = l.
Proof.
  intros Hr Hs. apply String.eqb_neq in Hr, Hs.
  destruct l as [src dst cap lat loss st ty]. unfold weather_link. rewrite Hr, Hs.
  destruct st; [|reflexivity].
  destruct (String.eqb ty "wireless"); [reflexivity|].
  destruct (String.eqb ty "wan"); reflexivity.
Qed.

Lemma map_fixed {A : Type} (f : A -> A) (l : list A) :
  (forall x, f x = x) -> map f l = l.
Proof. intros Hf. induction l as [|x l IH]; simpl; [reflexivity | rewrite Hf, IH; reflexivity]. Qed.

(** On every condition, "clear" included, the links after the call are
    the links before, each passed through [weather_link]. *)
Lemma weather_links (weather_condition : string) (self : ScenarioGenerator) :
  network_links (apply_weather_physics weather_condition self)
  = map (weather_link weather_condition) (network_links self).
Proof.
  unfold apply_weather_physics.
  destruct (String.eqb_spec weather_condition "clear") as [-> | _]; [|reflexivity].
  symmetry. apply map_fixed. intros l. apply weather_link_unknown; discriminate.
Qed.

(** X13. A condition that is neither "rain" nor "storm", be it "clear"
    or a word the code does not know, leaves the generator as it is. *)
Theorem unknown_weather_changes_nothing (weather_condition : string)
    (self : ScenarioGenerator) :
  weather_condition <> "rain" -> weather_condition <> "storm" ->
  apply_weather_physics weather_condition self = self.
Proof.
  intros Hr Hs. unfold apply_weather_physics.
  destruct (String.eqb weather_condition "clear"); [reflexivity|].
  rewrite map_fixed by (intros l; apply weather_link_unknown; assumption).
  destruct self; reflexivity.
Qed.

Lemma unknown_weather_changes_nothing_witness :
  "fog" <> "rain" /\ "fog" <> "storm" /\
  apply_weather_physics "fog" fresh_topology = fresh_topology.
Proof.
  assert (Hr : "fog" <> "rain") by discriminate.
  assert (Hs : "fog" <> "storm") by discriminate.
  split; [exact Hr|]. split; [exact Hs|].
  exact (unknown_weather_changes_nothing "fog" fresh_topology Hr Hs).
Defined.

(** X14. Whatever the condition, the call keeps the number of links and,
    link by link, the source, the destination, the type and the
    stochastic flag; rain keeps every latency; and a link whose type is
    neither "wireless" nor "wan" is returned unchanged even when it is
    flagged stochastic. *)
Theorem weather_keeps_the_graph (weather_condition : string) (self : ScenarioGenerator) :
  let self' := apply_weather_physics weather_condition self in
  length (network_links self') = length (network_links self) /\
  Forall2
    (fun l l' =>
       NetworkLink.src l' = NetworkLink.src l /\
       NetworkLink.dst l' = NetworkLink.dst l /\
       NetworkLink.link_type l' = NetworkLink.link_type l /\
       NetworkLink.stochastic l' = NetworkLink.stochastic l /\
       (weather_condition = "rain" -> NetworkLink.latency_ms l' = NetworkLink.latency_ms l) /\
       (NetworkLink.link_type l <> "wireless" -> NetworkLink.link_type l <> "wan" -> l' = l))
    (network_links self) (network_links self').
Proof.
  cbv zeta. rewrite weather_links. split; [apply length_map|].
  apply Forall2_map_r. intros l.
  destruct (weather_link_frame weather_condition l) as (Es & Ed & Est & Ety).
  split; [exact Es|]. split; [exact Ed|]. split; [exact Ety|]. split; [exact Est|].
  destruct l as [src dst cap lat loss st ty]. unfold weather_link.
  cbn [NetworkLink.latency_ms NetworkLink.link_type]. split.
  - intros ->. destruct st; [|reflexivity].
    destruct (String.eqb ty "wireless"); [reflexivity|].
    destruct (String.eqb ty "wan"); reflexivity.
  - intros Hw Hn. apply String.eqb_neq in Hw, Hn. rewrite Hw, Hn.
    destruct st; reflexivity.
Qed.

(** X15. The call does not remember what it did: applied again, it works
    on the links as it finds them.  On a stochastic wireless link rain
    after rain takes the capacity times 0.8 twice and leaves the loss
    rate at 0.05, and rain after storm takes the capacity times 0.6 and
    times 0.8 and brings the loss rate from 0.15 down to 0.05.  On the
    topology as first built a second rain brings the perimeter links
    from 240.0 to 192.0. *)
Theorem weather_compounds (w1 w2 : string) (self : ScenarioGenerator) (l : NetworkLink.t) :
  NetworkLink.stochastic l = true ->
  NetworkLink.link_type l = "wireless" ->
  network_links (apply_weather_physics w2 (apply_weather_physics w1 self))
    = map (fun l => weather_link w2 (weather_link w1 l)) (network_links self) /\
  weather_link "rain" (weather_link "rain" l)
    = NetworkLink.mk (NetworkLink.src l) (NetworkLink.dst l)
        (imul (imul (NetworkLink.capacity_mbps l) (F64.dec 8 1)) (F64.dec 8 1))
        (NetworkLink.latency_ms l) (F64.dec 5 2) true "wireless" /\
  weather_link "rain" (weather_link "storm" l)
    = NetworkLink.mk (NetworkLink.src l) (NetworkLink.dst l)
        (imul (imul (NetworkLink.capacity_mbps l) (F64.dec 6 1)) (F64.dec 8 1))
        (NetworkLink.latency_ms l) (F64.dec 5 2) true "wireless" /\
  NetworkLink.packet_loss_rate (weather_link "storm" l) = F64.dec 15 2 /\
  F64.ltb (F64.dec 5 2) (F64.dec 15 2) = true /\
  In (NetworkLink.mk "cam_Perimeter_Fence_00" "edge_perimeter" (PyFloat (F64.of_Z 192))
        (F64.dec 80 1) (F64.dec 5 2) true "wireless")
     (network_links (apply_weather_physics "rain"
                       (apply_weather_physics "rain" fresh_topology))).
Proof.
  intros Hst Hty. split; [rewrite !weather_links, map_map; reflexivity|].
  destruct l as [src dst cap lat loss st ty]. cbn in Hst, Hty. subst st ty.
  split; [reflexivity|]. split; [reflexivity|]. split; [reflexivity|].
  split; [vm_compute; reflexivity|].
  apply list_elem_of_In. apply (bool_decide_unpack _). vm_compute. exact I.
Qed.

Lemma weather_compounds_witness :
  NetworkLink.packet_loss_rate
    (weather_link "rain" (weather_link "storm"
       (camera_link (terminal_camera "Perimeter" "Fence" PZ1_CRITICAL_SECURITY 0))))
  = F64.dec 5 2.
Proof.
  destruct (weather_compounds "storm" "rain" fresh_topology
              (camera_link (terminal_camera "Perimeter" "Fence" PZ1_CRITICAL_SECURITY 0))
              eq_refl eq_refl) as (_ & _ & E & _).
  rewrite E. reflexivity.
Defined.

(** ** Intents on any generator *)

(** X16. The intents depend on the time context alone: the call gives
    the same list on every generator, so calling it again replaces the
    list; the ids of the list differ from one another; a context that is
    neither "peak" nor "emergency", known or not, gives the six base
    intents and nothing else; and no other list of the generator
    changes. *)
Theorem intents_depend_on_context_only (time_context previous : string)
    (self : ScenarioGenerator) :
  generate_intents time_context (generate_intents previous self)
    = generate_intents time_context self /\
  intents (generate_intents time_context self)
    = intents (generate_intents time_context empty_generator) /\
  List.NoDup (map Intent.id (intents (generate_intents time_context self))) /\
  (time_context <> "peak" -> time_context <> "emergency" ->
   intents (generate_intents time_context self) = base_intents) /\
  generate_intents time_context self
    = set_intents (intents (generate_intents time_context self)) self.
Proof.
  split; [|split; [|split; [|split]]].
  - rewrite (generate_intents_frame previous self). reflexivity.
  - unfold generate_intents. cbv zeta.
    destruct (String.eqb time_context "peak");
      [|destruct (String.eqb time_context "emergency")]; reflexivity.
  - unfold generate_intents. cbv zeta.
    destruct (String.eqb time_context "peak");
      [|destruct (String.eqb time_context "emergency")];
      apply NoDup_ListNoDup; apply (bool_decide_unpack _); vm_compute; exact I.
  - intros Hp He. apply String.eqb_neq in Hp, He.
    unfold generate_intents. cbv zeta. rewrite Hp, He. reflexivity.
  - apply generate_intents_frame.
Qed.

(** ** Placement on any generator *)

Section Placement.

Context `{RandomSource}.

Lemma local_edge_not_cloud (terminal : string) :
  String.eqb (dict_get camera_to_edge_map terminal "edge_termA") "cloud_primary" = false.
Proof.
  unfold camera_to_edge_map. cbn [dict_get].
  repeat match goal with |- context [String.eqb ?a terminal] => destruct (String.eqb a terminal) end;
    reflexivity.
Qed.

(** X17. Under "all_edge" the flow of a camera goes to the edge the link
    of the camera ends at, with [cloud_primary] as backup.  Under
    "all_cloud" every flow goes to [cloud_primary], with [edge_security]
    as backup.  Under "critical_edge" the flow of a camera of zone
    PZ1_CRITICAL_SECURITY goes to the edge of its link and any other to
    [cloud_primary].  This holds on any generator, edge servers or
    not. *)
Theorem placement_by_strategy (self : ScenarioGenerator) (g : rng) :
  Forall2
    (fun cam f =>
       VideoFlow.destination f = NetworkLink.dst (camera_link cam) /\
       VideoFlow.backup_destination f = "cloud_primary")
    (cameras self) (flows (fst (generate_flows "all_edge" self g))) /\
  Forall
    (fun f =>
       VideoFlow.destination f = "cloud_primary" /\
       VideoFlow.backup_destination f = "edge_security")
    (flows (fst (generate_flows "all_cloud" self g))) /\
  Forall2
    (fun cam f =>
       VideoFlow.destination f =
       (if decide (Camera.zone cam = PZ1_CRITICAL_SECURITY)
        then NetworkLink.dst (camera_link cam) else "cloud_primary"))
    (cameras self) (flows (fst (generate_flows "critical_edge" self g))).
Proof.
  rewrite !generate_flows_spec. cbn [fst flows set_flows]. split; [|split].
  - eapply Forall2_impl; [apply for_each_Forall2|].
    intros cam f [g0 ->]. rewrite camera_flow_run. cbv zeta.
    cbn [VideoFlow.destination VideoFlow.backup_destination].
    unfold choose_destination, camera_link. cbv zeta.
    cbn [String.eqb Ascii.eqb Bool.eqb ret fst NetworkLink.dst].
    rewrite local_edge_not_cloud. split; reflexivity.
  - apply for_each_Forall. intros cam g0. rewrite camera_flow_run. cbv zeta.
    split; reflexivity.
  - eapply Forall2_impl; [apply for_each_Forall2|].
    intros cam f [g0 ->]. rewrite camera_flow_run. cbv zeta.
    cbn [VideoFlow.destination].
    unfold choose_destination, camera_link. cbv zeta.
    cbn [String.eqb Ascii.eqb Bool.eqb ret fst NetworkLink.dst]. reflexivity.
Qed.

(** X18. A strategy that is none of "all_edge", "all_cloud" and
    "critical_edge" is treated as "random", known word or not: every
    destination is the value of [choice] over the ids of the edge
    servers other than the gateway followed by [cloud_primary].  On a
    generator without edge servers that leaves [cloud_primary] only. *)
Theorem other_strategies_are_random (placement_strategy : string)
    (self : ScenarioGenerator) (g : rng) :
  placement_strategy <> "all_edge" ->
  placement_strategy <> "all_cloud" ->
  placement_strategy <> "critical_edge" ->
  generate_flows placement_strategy self g = generate_flows "random" self g /\
  Forall
    (fun f => In (VideoFlow.destination f)
                 (non_gateway_ids (edge_servers self) ++ ["cloud_primary"]))
    (flows (fst (generate_flows placement_strategy self g))) /\
  (edge_servers self = [] ->
   Forall (fun f => VideoFlow.destination f = "cloud_primary" /\
                    VideoFlow.backup_destination f = "edge_security")
          (flows (fst (generate_flows placement_strategy self g)))).
Proof.
  intros He Hc Hk. apply String.eqb_neq in He, Hc, Hk.
  assert (Hbody : camera_flow placement_strategy self = camera_flow "random" self).
  { unfold camera_flow, choose_destination. rewrite He, Hc, Hk. reflexivity. }
  assert (Hdest : forall cam g0,
             In (VideoFlow.destination (fst (camera_flow placement_strategy self cam g0)))
                (non_gateway_ids (edge_servers self) ++ ["cloud_primary"])).
  { intros cam g0. rewrite camera_flow_run. cbv zeta. cbn [VideoFlow.destination].
    unfold choose_destination. cbv zeta. rewrite He, Hc, Hk.
    apply choice_In. intros E. apply app_eq_nil in E as [_ E]. discriminate E. }
  rewrite !generate_flows_spec, Hbody. split; [reflexivity|].
  cbn [fst flows set_flows]. rewrite <- Hbody. split.
  - apply for_each_Forall. exact Hdest.
  - intros E0. apply for_each_Forall. intros cam g0.
    specialize (Hdest cam g0). rewrite E0 in Hdest. destruct Hdest as [Hd | []].
    revert Hd. rewrite camera_flow_run. cbv zeta.
    cbn [VideoFlow.destination VideoFlow.backup_destination]. intros <-.
    split; reflexivity.
Qed.

End Placement.

Lemma other_strategies_are_random_witness :
  "round_robin" <> "all_edge" /\
  @generate_flows counting_source "round_robin" fresh_topology (@seed counting_source 5)
  = @generate_flows counting_source "random" fresh_topology (@seed counting_source 5).
Proof.
  assert (H1 : "round_robin" <> "all_edge") by discriminate.
  assert (H2 : "round_robin" <> "all_cloud") by discriminate.
  assert (H3 : "round_robin" <> "critical_edge") by discriminate.
  split; [exact H1|].
  exact (proj1 (@other_strategies_are_random counting_source "round_robin" fresh_topology
                  (@seed counting_source 5) H1 H2 H3)).
Defined.

Section FlowFields.

Context `{RandomSource}.

Lemma zone_profile_in_table (cam : Camera.t) :
  In (analytics_map (Camera.zone cam), zone_profile cam) analytics_profile.
Proof.
  unfold zone_profile. destruct (Camera.zone cam); vm_compute; tauto.
Qed.

(** X19. For every strategy and every generator, the flow of a camera is
    named [flow_] followed by the id of the camera, has the camera as
    source and the zone of the camera, and its analytics type is the one
    of the zone; the profile of that type is an entry of
    [analytics_profile], so the default profile is never used.  Where
    the camera ids differ from one another, so do the flow ids. *)
Theorem flow_describes_camera (placement_strategy : string) (self : ScenarioGenerator)
    (g : rng) :
  let fs := flows (fst (generate_flows placement_strategy self g)) in
  Forall2
    (fun cam f =>
       VideoFlow.id f = "flow_" +:+ Camera.id cam /\
       VideoFlow.source f = Camera.id cam /\
       VideoFlow.zone f = Camera.zone cam /\
       VideoFlow.analytics_type f = analytics_map (Camera.zone cam) /\
       In (VideoFlow.analytics_type f, zone_profile cam) analytics_profile)
    (cameras self) fs /\
  (List.NoDup (map Camera.id (cameras self)) -> List.NoDup (map VideoFlow.id fs)).
Proof.
  cbv zeta. rewrite generate_flows_spec. cbn [fst flows set_flows]. split.
  - eapply Forall2_impl; [apply for_each_Forall2|].
    intros cam f [g0 ->]. rewrite camera_flow_run. cbv zeta.
    cbn [VideoFlow.id VideoFlow.source VideoFlow.zone VideoFlow.analytics_type].
    repeat split. apply zone_profile_in_table.
  - intros Hnd.
    rewrite (for_each_map _ VideoFlow.id (fun cam => "flow_" +:+ Camera.id cam))
      by (intros a g0; rewrite camera_flow_run; reflexivity).
    rewrite <- (map_map Camera.id (fun s => "flow_" +:+ s)).
    apply Finite.Injective_map_NoDup; [|exact Hnd].
    intros x y E. apply (string_app_inj_l "flow_"), E.
Qed.

End FlowFields.

(** ** The exported document *)

Lemma PolicyZone_name_inj (x y : PolicyZone) : PolicyZone_name x = PolicyZone_name y -> x = y.
Proof. destruct x, y; intros E; first [reflexivity | discriminate E]. Qed.

Lemma IntentCategory_name_inj (x y : IntentCategory) :
  IntentCategory_name x = IntentCategory_name y -> x = y.
Proof. destruct x, y; intros E; first [reflexivity | discriminate E]. Qed.

Lemma map_injective {A B : Type} (f : A -> B) (l l' : list A) :
  (forall x y, f x = f y -> x = y) -> map f l = map f l' -> l = l'.
Proof.
  intros Hf. revert l'. induction l as [|x l IH]; intros [|y l'] E; simpl in E;
    try discriminate E; [reflexivity|].
  injection E as E1 E2. f_equal; [apply Hf, E1 | apply IH, E2].
Qed.

Lemma json_of_zone_inj (x y : PolicyZone) : json_of_zone x = json_of_zone y -> x = y.
Proof. unfold json_of_zone. intros E. injection E. apply PolicyZone_name_inj. Qed.

Lemma asdict_camera_inj (x y : Camera.t) : asdict_camera x = asdict_camera y -> x = y.
Proof.
  destruct x, y. unfold asdict_camera. cbn. intros E. injection E. intros. subst.
  f_equal. apply PolicyZone_name_inj. assumption.
Qed.

Lemma asdict_edge_inj (x y : EdgeServer.t) : asdict_edge x = asdict_edge y -> x = y.
Proof. destruct x, y. unfold asdict_edge. cbn. intros E. injection E. intros. subst. reflexivity. Qed.

Lemma json_of_cloud_inj (x y : CloudEndpoint.t) : json_of_cloud x = json_of_cloud y -> x = y.
Proof. destruct x, y. unfold json_of_cloud. cbn. intros E. injection E. intros. subst. reflexivity. Qed.

Lemma json_of_number_inj (x y : number) : json_of_number x = json_of_number y -> x = y.
Proof. destruct x, y; cbn; intros E; try discriminate E; injection E; intros; subst; reflexivity. Qed.

Lemma asdict_link_inj (x y : NetworkLink.t) : asdict_link x = asdict_link y -> x = y.
Proof.
  destruct x, y. unfold asdict_link. cbn. intros E. injection E. intros. subst.
  f_equal. apply json_of_number_inj. assumption.
Qed.

Lemma asdict_flow_inj (x y : VideoFlow.t) : asdict_flow x = asdict_flow y -> x = y.
Proof.
  destruct x, y. unfold asdict_flow. cbn. intros E. injection E. intros. subst.
  f_equal. apply PolicyZone_name_inj. assumption.
Qed.

Lemma asdict_background_inj (x y : BackgroundTraffic.t) :
  asdict_background x = asdict_background y -> x = y.
Proof.
  destruct x, y. unfold asdict_background. cbn. intros E. injection E. intros. subst.
  reflexivity.
Qed.

Lemma asdict_failure_inj (x y : FailureEvent.t) : asdict_failure x = asdict_failure y -> x = y.
Proof.
  destruct x, y. unfold asdict_failure. cbn. intros E. injection E. intros. subst.
  reflexivity.
Qed.

Lemma json_of_pyvalue_inj (x y : pyvalue) : json_of_pyvalue x = json_of_pyvalue y -> x = y.
Proof. destruct x, y; cbn; intros E; try discriminate E; injection E; intros; subst; reflexivity. Qed.

Lemma asdict_intent_inj (x y : Intent.t) : asdict_intent x = asdict_intent y -> x = y.
Proof.
  destruct x as [i1 c1 d1 z1 k1 p1], y as [i2 c2 d2 z2 k2 p2]. unfold asdict_intent. cbn.
  intros E. injection E as Ei Ec Ed Ez Ek Ep. subst.
  apply IntentCategory_name_inj in Ec. apply map_injective in Ez; [|apply json_of_zone_inj].
  apply map_injective in Ek.
  - subst. reflexivity.
  - intros [a u] [b v]. cbn. intros E. injection E as -> E.
    apply json_of_pyvalue_inj in E. subst. reflexivity.
Qed.

(** X20. The document keeps everything: two exports that give the same
    document were made with the same scenario id and the same weather
    label from generators that agree on all eight lists, enum members,
    integers and floats included. *)
Theorem export_scenario_injective (id1 id2 : Z) (w1 w2 : string) (s1 s2 : ScenarioGenerator) :
  export_scenario id1 w1 s1 = export_scenario id2 w2 s2 ->
  id1 = id2 /\ w1 = w2 /\ s1 = s2.
Proof.
  unfold export_scenario. intros E.
  injection E as Eid Ew _ Ecam Eedge Ecloud Elink Eflow Ebg Eint Efail.
  apply map_injective in Ecam; [|apply asdict_camera_inj].
  apply map_injective in Eedge; [|apply asdict_edge_inj].
  apply map_injective in Ecloud; [|apply json_of_cloud_inj].
  apply map_injective in Elink; [|apply asdict_link_inj].
  apply map_injective in Eflow; [|apply asdict_flow_inj].
  apply map_injective in Ebg; [|apply asdict_background_inj].
  apply map_injective in Eint; [|apply asdict_intent_inj].
  apply map_injective in Efail; [|apply asdict_failure_inj].
  destruct s1, s2. cbn in *. subst. repeat split.
Qed.

Lemma export_scenario_injective_witness :
  export_scenario 3 "rain" fresh_topology = export_scenario 3 "rain" fresh_topology /\
  fresh_topology = fresh_topology.
Proof.
  pose proof (export_scenario_injective 3 3 "rain" "rain" fresh_topology fresh_topology)
    as Hinj.
  split; [reflexivity|]. apply Hinj. reflexivity.
Defined.

(** ** The driver *)

Section DriverProperties.

Context `{RandomSource}.

(** One pass of the driver, step by step. *)
Lemma build_scenario_inv (i : nat) (g : rng) :
  exists weather time_ctx placement bg_load g3 g5 g6,
    let gen1 := generate_intents time_ctx (apply_weather_physics weather fresh_topology) in
    let gen2 := fst (generate_flows placement gen1 g3) in
    let gen3 := fst (generate_background_traffic bg_load gen2 g5) in
    fst (build_scenario i g)
      = mkScenario weather time_ctx placement bg_load (fst (generate_failures gen3 g6)) /\
    In weather weather_conditions /\
    In time_ctx time_contexts /\
    In placement placement_strategies /\
    (if String.eqb time_ctx "peak"
     then (60 <= bg_load <= 100)%Z else (10 <= bg_load <= 30)%Z).
Proof.
  unfold fresh_topology.
  cbv beta iota zeta delta [build_scenario bind construct ret].
  pose proof (choice_In string "" weather_conditions (seed (42 + Z.of_nat i))) as Hw.
  destruct (choice "" weather_conditions (seed (42 + Z.of_nat i))) as [weather g1].
  pose proof (choice_In string "" time_contexts g1) as Ht.
  destruct (choice "" time_contexts g1) as [time_ctx g2].
  pose proof (choice_In string "" placement_strategies g2) as Hp.
  destruct (choice "" placement_strategies g2) as [placement g3].
  exists weather, time_ctx, placement.
  destruct (generate_flows placement
              (generate_intents time_ctx
                 (apply_weather_physics weather (generate_topology empty_generator))) g3)
    as [gen2 g4] eqn:Ef.
  assert (Hb : if String.eqb time_ctx "peak"
               then (60 <= fst (randint 60 100 g4) <= 100)%Z
               else (10 <= fst (randint 10 30 g4) <= 30)%Z).
  { destruct (String.eqb time_ctx "peak"); apply randint_range; lia. }
  destruct (String.eqb time_ctx "peak") eqn:Epk.
  - destruct (randint 60 100 g4) as [bg_load g5].
    destruct (generate_background_traffic bg_load gen2 g5) as [gen3 g6] eqn:Eg.
    exists bg_load, g3, g5, g6. cbv zeta. rewrite Ef. cbn [fst] in *. rewrite Eg. cbn [fst].
    destruct (generate_failures gen3 g6) as [gen4 g7].
    repeat split; try (first [apply Hw | apply Ht | apply Hp]; discriminate); apply Hb.
  - destruct (randint 10 30 g4) as [bg_load g5].
    destruct (generate_background_traffic bg_load gen2 g5) as [gen3 g6] eqn:Eg.
    exists bg_load, g3, g5, g6. cbv zeta. rewrite Ef. cbn [fst] in *. rewrite Eg. cbn [fst].
    destruct (generate_failures gen3 g6) as [gen4 g7].
    repeat split; try (first [apply Hw | apply Ht | apply Hp]; discriminate); apply Hb.
Qed.

Lemma scenario_background (i : nat) (g : rng) :
  let sc := fst (build_scenario i g) in
  length (background_traffic (scenario_gen sc)) = Z.to_nat (scenario_bg_load sc) /\
  (if String.eqb (scenario_time_ctx sc) "peak"
   then (60 <= scenario_bg_load sc <= 100)%Z else (10 <= scenario_bg_load sc <= 30)%Z).
Proof.
  cbv zeta.
  destruct (build_scenario_inv i g)
    as (weather & time_ctx & placement & bg_load & g3 & g5 & g6 & Hsc & _ & _ & _ & Hb).
  cbv zeta in Hsc. rewrite Hsc. cbn [scenario_gen scenario_bg_load scenario_time_ctx].
  split; [|exact Hb].
  rewrite generate_failures_frame. cbn [background_traffic set_failures].
  rewrite generate_background_traffic_spec.
  cbn [fst background_traffic set_background_traffic].
  rewrite for_each_length. apply length_seq.
Qed.

(** What the calls after the topology leave of it in a scenario. *)
Lemma scenario_frame (i : nat) (g : rng) :
  let sc := fst (build_scenario i g) in
  cameras (scenario_gen sc) = topology_cameras /\
  edge_servers (scenario_gen sc) = topology_edge_servers /\
  cloud_endpoints (scenario_gen sc) = topology_cloud_endpoints /\
  network_links (scenario_gen sc)
    = map (weather_link (scenario_weather sc)) (network_links fresh_topology) /\
  intents (scenario_gen sc)
    = intents (generate_intents (scenario_time_ctx sc) empty_generator) /\
  length (flows (scenario_gen sc)) = length topology_cameras /\
  length (failures (scenario_gen sc)) <= 2.
Proof.
  cbv zeta.
  destruct (build_scenario_inv i g)
    as (weather & time_ctx & placement & bg_load & g3 & g5 & g6 & Hsc & _).
  cbv zeta in Hsc. rewrite Hsc. cbn [scenario_gen scenario_weather scenario_time_ctx].
  assert (Hfail : forall s g0, length (failures (fst (generate_failures s g0))) <= 2).
  { intros s g0.
    destruct (generate_failures_cases s g0)
      as [-> | [(e & st & -> & _) | [(st & -> & _) | [-> _]]]]; simpl; lia. }
  assert (Hw : forall s, cameras (apply_weather_physics weather s) = cameras s /\
                         edge_servers (apply_weather_physics weather s) = edge_servers s /\
                         cloud_endpoints (apply_weather_physics weather s)
                           = cloud_endpoints s).
  { intros s. unfold apply_weather_physics.
    destruct (String.eqb weather "clear"); repeat split. }
  destruct (Hw fresh_topology) as (Hc & He & Hcl).
  split; [|split; [|split; [|split; [|split; [|split; [|apply Hfail]]]]]];
    rewrite generate_failures_frame;
    cbn [cameras edge_servers cloud_endpoints network_links flows intents set_failures];
    rewrite generate_background_traffic_spec;
    cbn [fst cameras edge_servers cloud_endpoints network_links flows intents
         set_background_traffic];
    rewrite generate_flows_spec;
    cbn [fst cameras edge_servers cloud_endpoints network_links flows intents set_flows];
    try rewrite for_each_length;
    rewrite (generate_intents_frame time_ctx (apply_weather_physics weather fresh_topology));
    cbn [cameras edge_servers cloud_endpoints network_links intents set_intents].
  - exact Hc.
  - exact He.
  - exact Hcl.
  - apply weather_links.
  - unfold generate_intents. cbv zeta.
    destruct (String.eqb time_ctx "peak"); [|destruct (String.eqb time_ctx "emergency")];
      reflexivity.
  - rewrite Hc. reflexivity.
Qed.

(** X21. In every scenario of the driver the weather, the time context
    and the placement are among the candidates, there are between 60 and
    100 background flows when the time context is "peak" and between 10
    and 30 otherwise, and so the [time_of_day] of the document is "peak"
    exactly when the time context is "peak": an "emergency" scenario,
    whose intents end with the emergency override, is written as
    "off_peak".  The document carries the index as [scenario_id] and the
    weather that was applied to the links as [weather]. *)
Theorem scenario_labels (i : nat) (g : rng) :
  let sc := fst (build_scenario i g) in
  let doc := export_scenario (Z.of_nat i) (scenario_weather sc) (scenario_gen sc) in
  In (scenario_weather sc) weather_conditions /\
  In (scenario_time_ctx sc) time_contexts /\
  In (scenario_placement sc) placement_strategies /\
  length (background_traffic (scenario_gen sc)) = Z.to_nat (scenario_bg_load sc) /\
  (if String.eqb (scenario_time_ctx sc) "peak"
   then (60 <= scenario_bg_load sc <= 100)%Z else (10 <= scenario_bg_load sc <= 30)%Z) /\
  json_field "context" doc
    = Some (JDict [("weather", JStr (scenario_weather sc));
                   ("time_of_day",
                    JStr (if String.eqb (scenario_time_ctx sc) "peak"
                          then "peak" else "off_peak"))]) /\
  json_field "scenario_id" doc = Some (JInt (Z.of_nat i)) /\
  intents (scenario_gen sc)
    = intents (generate_intents (scenario_time_ctx sc) empty_generator) /\
  network_links (scenario_gen sc)
    = map (weather_link (scenario_weather sc)) (network_links fresh_topology).
Proof.
  cbv zeta. destruct (scenario_background i g) as [Hlen Hload].
  destruct (scenario_frame i g) as (_ & _ & _ & Hlinks & Hints & _).
  assert (Hin : In (scenario_weather (fst (build_scenario i g))) weather_conditions /\
                In (scenario_time_ctx (fst (build_scenario i g))) time_contexts /\
                In (scenario_placement (fst (build_scenario i g))) placement_strategies).
  { destruct (build_scenario_inv i g)
      as (weather & time_ctx & placement & bg_load & g3 & g5 & g6 & Hsc & Hw & Ht & Hp & _).
    cbv zeta in Hsc. rewrite Hsc. repeat split; assumption. }
  destruct Hin as (Hw & Ht & Hp).
  split; [exact Hw|]. split; [exact Ht|]. split; [exact Hp|]. split; [exact Hlen|].
  split; [exact Hload|]. split; [|split; [reflexivity|split; [exact Hints | exact Hlinks]]].
  unfold export_scenario, json_field.
  cbn [map fst snd dict_get String.eqb Ascii.eqb Bool.eqb]. rewrite Hlen.
  destruct (String.eqb (scenario_time_ctx (fst (build_scenario i g))) "peak").
  - replace (Nat.ltb 50 (Z.to_nat (scenario_bg_load (fst (build_scenario i g))))) with true
      by (symmetry; apply Nat.ltb_lt; lia).
    reflexivity.
  - replace (Nat.ltb 50 (Z.to_nat (scenario_bg_load (fst (build_scenario i g))))) with false
      by (symmetry; apply Nat.ltb_ge; lia).
    reflexivity.
Qed.

(** X22. Every scenario of the driver starts from the seed 42 + i and
    not from what the stream held, so it is the same in every run and
    whatever was generated before.  It has the 127 cameras and the
    infrastructure of the topology, 134 links, one flow per camera, six
    or seven intents and at most two failure events. *)
Theorem scenario_shape (i : nat) (g g' : rng) :
  let sc := fst (build_scenario i g) in
  build_scenario i g = build_scenario i g' /\
  cameras (scenario_gen sc) = topology_cameras /\
  edge_servers (scenario_gen sc) = topology_edge_servers /\
  cloud_endpoints (scenario_gen sc) = topology_cloud_endpoints /\
  length (cameras (scenario_gen sc)) = 127 /\
  length (network_links (scenario_gen sc)) = 134 /\
  length (flows (scenario_gen sc)) = 127 /\
  6 <= length (intents (scenario_gen sc)) <= 7 /\
  length (failures (scenario_gen sc)) <= 2.
Proof.
  cbv zeta. split; [reflexivity|].
  destruct (scenario_frame i g) as (Hc & He & Hcl & Hl & Hi & Hf & Hfa).
  split; [exact Hc|]. split; [exact He|]. split; [exact Hcl|].
  split; [rewrite Hc; reflexivity|].
  split; [rewrite Hl, length_map; reflexivity|].
  split; [rewrite Hf; reflexivity|]. split; [|exact Hfa].
  rewrite Hi.
  destruct (intents_base_prefix (scenario_time_ctx (fst (build_scenario i g)))
              empty_generator) as (extra & -> & Hx).
  rewrite length_app. change (length base_intents) with 6. lia.
Qed.

End DriverProperties.

(** ** Capacities *)

Section Capacities.

Context `{RandomSource}.




End Capacities.
